(** * Resume scoring adjustment and job-sync service: a shallow embedding

    The scoring module (normal-mode scoring: input quality assessment,
    weight normalisation, score adjustment, confidence alignment) and the
    job-fetch service (sync statistics, search-config validation, sync
    trigger, connection test) are embedded function by function.

    JavaScript numbers that are measured quantities of the input (scores,
    percentages, weights) are IEEE-754 binary64 values, modelled with the
    primitive floats of Rocq.  Counts (lengths of arrays, numbers of regex
    matches, the rubric score built from integer constants) are modelled as
    [Z].  A resume text is a sequence of UTF-16 code units. *)

From Stdlib Require Import ZArith List Bool String Ascii Lia.
From Stdlib Require Import Floats.FloatClass Floats.PrimFloat Floats.FloatOps
  Floats.SpecFloat Floats.FloatAxioms.
From Stdlib Require Import Numbers.Cyclic.Int63.Uint63.
From stdpp Require Import base option list strings gmap fin_maps.

Set Default Proof Using "Type".
Local Open Scope Z_scope.

(* ===================================================================== *)
(** ** JavaScript strings and the [RegExp] fragment the sources use *)
(* ===================================================================== *)

Module Js.

(** A string is a list of UTF-16 code units. *)
Definition jsstring := list N.

Definition jsstring_eq_dec : forall a b : jsstring, {a = b} + {a <> b} :=
  List.list_eq_dec N.eq_dec.

(** ASCII literals of the sources, as code units. *)
Definition lit (s : string) : jsstring :=
  List.map N_of_ascii (list_ascii_of_string s).

Definition in_range (lo hi c : N) : bool := ((lo <=? c) && (c <=? hi))%N.

Definition is_digit (c : N) : bool := in_range 48 57 c.
Definition is_upper (c : N) : bool := in_range 65 90 c.
Definition is_lower (c : N) : bool := in_range 97 122 c.

(** [\w]: the class [A-Za-z0-9_]. *)
Definition is_word (c : N) : bool :=
  is_upper c || is_lower c || is_digit c || (c =? 95)%N.

(** [\s], which is also what [String.prototype.trim] strips: the WhiteSpace
    and LineTerminator code points of ECMAScript. *)
Definition is_space (c : N) : bool :=
  in_range 9 13 c || (c =? 32)%N || (c =? 160)%N || (c =? 5760)%N
  || in_range 8192 8202 c || (c =? 8232)%N || (c =? 8233)%N
  || (c =? 8239)%N || (c =? 8287)%N || (c =? 12288)%N || (c =? 65279)%N.

(** LineTerminator: LF, CR, LS, PS (what [^] looks at under the m flag). *)
Definition is_line_terminator (c : N) : bool :=
  (c =? 10)%N || (c =? 13)%N || (c =? 8232)%N || (c =? 8233)%N.

(** Canonicalisation of the i flag (no u flag): an ASCII letter of the
    pattern matches both of its cases and no code unit above 127. *)
Definition ascii_upper (c : N) : N := if is_lower c then (c - 32)%N else c.
Definition char_ci (p c : N) : bool := (ascii_upper p =? ascii_upper c)%N.

Definition one_of (cs : list N) (c : N) : bool := existsb (N.eqb c) cs.

(** Patterns.  A character set is a predicate on code units. *)
Inductive regex : Type :=
| Eps : regex
| Chr : (N -> bool) -> regex
| Cat : regex -> regex -> regex
| Alt : regex -> regex -> regex
| Star : regex -> regex
| WordB : regex                 (* \b *)
| LineStart : regex.            (* ^ under the m flag *)

(** A position in the input: the code unit before it, and what follows. *)
Definition pos : Type := option N * jsstring.

Definition remaining (p : pos) : nat := List.length (snd p).

Definition word_before (p : pos) : bool :=
  match fst p with Some c => is_word c | None => false end.
Definition word_after (p : pos) : bool :=
  match snd p with c :: _ => is_word c | [] => false end.

(** Backtracking matcher in continuation-passing style, with the
    priorities of ECMAScript: the left alternative first, greedy
    repetition, and an iteration of [*] that consumes nothing is refused. *)
Fixpoint rmatch (r : regex) (k : pos -> option pos) (p : pos) {struct r}
  : option pos :=
  match r with
  | Eps => k p
  | Chr f =>
      match snd p with
      | c :: rest => if f c then k (Some c, rest) else None
      | [] => None
      end
  | Cat r1 r2 => rmatch r1 (rmatch r2 k) p
  | Alt r1 r2 =>
      match rmatch r1 k p with
      | Some q => Some q
      | None => rmatch r2 k p
      end
  | Star r1 =>
      (fix loop (fuel : nat) (p : pos) {struct fuel} : option pos :=
         match fuel with
         | O => k p
         | S fuel' =>
             match rmatch r1
                     (fun q => if (remaining q <? remaining p)%nat
                               then loop fuel' q else None) p with
             | Some q => Some q
             | None => k p
             end
         end) (remaining p) p
  | WordB => if xorb (word_before p) (word_after p) then k p else None
  | LineStart =>
      match fst p with
      | None => k p
      | Some c => if is_line_terminator c then k p else None
      end
  end.

(** Derived forms. *)
Definition Opt (r : regex) : regex := Alt r Eps.
Definition Plus (r : regex) : regex := Cat r (Star r).

Fixpoint CatL (rs : list regex) : regex :=
  match rs with
  | [] => Eps
  | [r] => r
  | r :: rs' => Cat r (CatL rs')
  end.

Fixpoint AltL (rs : list regex) : regex :=
  match rs with
  | [] => Chr (fun _ => false)
  | [r] => r
  | r :: rs' => Alt r (AltL rs')
  end.

(** [r{1,n}] for n >= 1. *)
Fixpoint Rep1 (n : nat) (r : regex) : regex :=
  match n with
  | O => Eps
  | S O => r
  | S n' => Cat r (Opt (Rep1 n' r))
  end.

(** A literal word under the i flag. *)
Definition word_ci (s : string) : regex :=
  CatL (List.map (fun c => Chr (char_ci c)) (lit s)).

Definition ws_star : regex := Star (Chr is_space).

(** The match of [r] that starts exactly at [p], if any. *)
Definition match_at (r : regex) (p : pos) : option pos := rmatch r Some p.

(** Leftmost match at or after [p]: its start and its end. *)
Fixpoint search (r : regex) (p : pos) (fuel : nat) : option (pos * pos) :=
  match match_at r p with
  | Some q => Some (p, q)
  | None =>
      match fuel, snd p with
      | S fuel', c :: rest => search r (Some c, rest) fuel'
      | _, _ => None
      end
  end.

(** [re.test(s)] for a pattern without the g flag. *)
Definition test (r : regex) (s : jsstring) : bool :=
  match search r (None, s) (List.length s) with
  | Some _ => true
  | None => false
  end.

(** [(s.match(re) || []).length] for a pattern with the g flag: the
    matches are taken left to right, each search resuming where the
    previous match ended (one code unit further after an empty match). *)
Fixpoint count_from (r : regex) (p : pos) (fuel : nat) : Z :=
  match fuel with
  | O => 0
  | S fuel' =>
      match search r p (remaining p) with
      | None => 0
      | Some (start, q) =>
          if (remaining q <? remaining start)%nat
          then 1 + count_from r q fuel'
          else match snd q with
               | c :: rest => 1 + count_from r (Some c, rest) fuel'
               | [] => 1
               end
      end
  end.

Definition match_count (r : regex) (s : jsstring) : Z :=
  count_from r (None, s) (S (List.length s)).

(** [s.trim()]. *)
Fixpoint trim_start (s : jsstring) : jsstring :=
  match s with
  | c :: rest => if is_space c then trim_start rest else s
  | [] => []
  end.

Definition trim (s : jsstring) : jsstring :=
  List.rev (trim_start (List.rev (trim_start s))).

(** [s.split(re)]: the separator is tried at every index [q]; a match that
    ends where the current piece starts is skipped, any other match closes
    the piece and the scan resumes at its end. *)
Fixpoint split_from (r : regex) (piece : jsstring) (p : pos) (fuel : nat)
  : list jsstring :=
  match fuel, snd p with
  | S fuel', c :: rest =>
      match match_at r p with
      | Some q =>
          if (match piece with [] => true | _ => false end)
             && (remaining q =? remaining p)%nat
          then split_from r [c] (Some c, rest) fuel'
          else List.rev piece :: split_from r [] q fuel'
      | None => split_from r (c :: piece) (Some c, rest) fuel'
      end
  | _, _ => [List.rev piece]
  end.

Definition split (r : regex) (s : jsstring) : list jsstring :=
  match s with
  | [] => match match_at r (None, []) with Some _ => [] | None => [[]] end
  | _ => split_from r [] (None, s) (2 * List.length s + 2)
  end.

(** [s.includes(t)]. *)
Fixpoint starts_with (t s : jsstring) : bool :=
  match t, s with
  | [], _ => true
  | a :: t', b :: s' => (a =? b)%N && starts_with t' s'
  | _ :: _, [] => false
  end.

Fixpoint includes (s t : jsstring) : bool :=
  starts_with t s ||
  match s with
  | [] => false
  | _ :: s' => includes s' t
  end.

(** A [Set<string>] keeps its members in insertion order, without
    duplicates. *)
Fixpoint set_add (x : jsstring) (s : list jsstring) : list jsstring :=
  match s with
  | [] => [x]
  | y :: s' => if jsstring_eq_dec x y then s else y :: set_add x s'
  end.

End Js.

(* ===================================================================== *)
(** ** JavaScript numbers: the [Math] functions the sources use *)
(* ===================================================================== *)

#[local] Set Warnings "-inexact-float".

Module JsNum.

Definition float_of_Z (z : Z) : float :=
  if z <? 0 then (- of_uint63 (Uint63.of_Z (- z)))%float
  else of_uint63 (Uint63.of_Z z).

Definition is_neg_zero (x : float) : bool :=
  match classify x with NZero => true | _ => false end.

(** [Math.round(x)]: the integer nearest to [x], ties towards +infinity;
    NaN, the infinities and the zeros are returned as they are, and a
    negative [x >= -0.5] gives -0.  A finite [x = m * 2^e] with [e >= 0] is
    already an integer; otherwise floor(x + 1/2) is computed exactly. *)
Definition Math_round (x : float) : float :=
  match Prim2SF x with
  | S754_finite s m e =>
      if 0 <=? e then x
      else
        let n := if s then Z.neg m else Z.pos m in
        let r := (2 * n + 2 ^ (- e)) / 2 ^ (1 - e) in
        if r =? 0 then (if s then neg_zero else zero) else float_of_Z r
  | _ => x
  end.

(** [Math.max(a, b)] and [Math.min(a, b)]: NaN when an argument is NaN, and
    +0 counts as larger than -0. *)
Definition Math_max (a b : float) : float :=
  if is_nan a || is_nan b then nan
  else if (a <? b)%float then b
  else if (b <? a)%float then a
  else if is_neg_zero a then b else a.

Definition Math_min (a b : float) : float :=
  if is_nan a || is_nan b then nan
  else if (a <? b)%float then a
  else if (b <? a)%float then b
  else if is_neg_zero a then a else b.

End JsNum.

Import Js JsNum.

(* ===================================================================== *)
(** ** Normal-mode scoring: types *)
(* ===================================================================== *)

(** The structured parse result.  Its declaration ([../types/resume]) is
    not among the sources; the fields below are the ones the scoring
    module reads, each optional as the code treats it ([?.], [||]). *)
Record SkillCategory := {
  category : jsstring;
  skill_list : option (list jsstring)          (* [list] *)
}.

Record Education := { degree : jsstring; school : jsstring }.

Record WorkExperience := {
  role : jsstring;
  exp_bullets : option (list jsstring)         (* [bullets] *)
}.

Record Project := {
  title : jsstring;
  proj_bullets : option (list jsstring)        (* [bullets] *)
}.

Record ResumeData := {
  skills : option (list SkillCategory);
  education : option (list Education);
  workExperience : option (list WorkExperience);
  projects : option (list Project)
}.

Inductive UserType := user_fresher | user_experienced | user_student.

Record NormalModeInput := {
  resumeText : jsstring;
  resumeData : option ResumeData;
  userType : option UserType
}.

Inductive Quality := excellent | good | fair | poor | invalid.

Record ContentMetrics := {
  wordCount : Z;
  sectionCount : Z;
  hasContactInfo : bool;
  hasSkills : bool;
  hasEducation : bool;
  hasExperience : bool;
  hasProjects : bool;
  bulletCount : Z;
  uniqueSkillCount : Z
}.

Record InputQualityAssessment := {
  isValid : bool;
  quality : Quality;
  qualityScore : Z;
  issues : list string;
  contentMetrics : ContentMetrics
}.

Record NormalizedWeights := {
  skills_keywords : float;
  experience : float;
  education_w : float;                          (* [education] *)
  projects_w : float;                           (* [projects] *)
  certifications : float;
  basic_structure : float;
  content_structure : float;
  competitive : float;
  culture_fit : float;
  qualitative : float
}.

Record ScoreAdjustment := {
  baseScore : float;
  qualityMultiplier : float;
  candidateLevelBonus : float;
  finalScore : float;
  explanation : string
}.

Inductive ConfidenceLevel := High | Medium | Low.

(** What a [weight] property can hold: a number, or a member that an
    object literal inherits from [Object.prototype] (a function, or the
    prototype itself for [__proto__]), which is what [weights[key]] gives
    for the name of such a member. *)
Inductive WeightValue :=
| Num (w : float)
| Member (name : string).

(** The number a weight stands for in a product: the members convert to
    NaN. *)
Definition to_number (v : WeightValue) : float :=
  match v with
  | Num w => w
  | Member _ => nan
  end.

(** A tier record: the three fields the code reads or writes, and whatever
    else the object carries (kept by the spread [...tier]). *)
Record TierScore (R : Type) := {
  percentage : float;
  weight : WeightValue;
  weighted_contribution : float;
  tier_rest : R
}.
Arguments percentage {R} _.
Arguments weight {R} _.
Arguments weighted_contribution {R} _.
Arguments tier_rest {R} _.

(* ===================================================================== *)
(** ** Helper functions (regex detectors and counters) *)
(* ===================================================================== *)

(** [\b(a1|a2|...)\b] under the i flag. *)
Definition header (alts : list regex) : regex := CatL [WordB; AltL alts; WordB].

(** [A\s*B] *)
Definition two_words (a b : string) : regex :=
  CatL [word_ci a; ws_star; word_ci b].

(** [WORDS?]: the last letter optional. *)
Definition word_opt (w last : string) : regex :=
  Cat (word_ci w) (Opt (word_ci last)).

Definition re_experience_section : regex :=
  header [word_ci "EXPERIENCE"; two_words "WORK" "EXPERIENCE";
          word_ci "EMPLOYMENT"; two_words "PROFESSIONAL" "EXPERIENCE"].
Definition re_education_section : regex :=
  header [word_ci "EDUCATION"; word_ci "ACADEMIC"; word_ci "QUALIFICATIONS"].
Definition re_skills_section : regex :=
  header [word_ci "SKILLS"; two_words "TECHNICAL" "SKILLS";
          two_words "CORE" "COMPETENCIES"].
Definition re_projects_section : regex :=
  header [word_ci "PROJECTS"; two_words "PERSONAL" "PROJECTS";
          two_words "ACADEMIC" "PROJECTS"].

Definition sectionPatterns : list regex :=
  [ re_experience_section;
    re_education_section;
    re_skills_section;
    re_projects_section;
    header [word_opt "CERTIFICATION" "S"; word_opt "CERTIFICATE" "S";
            word_opt "LICENSE" "S"];
    header [word_ci "SUMMARY"; word_ci "OBJECTIVE"; word_ci "PROFILE";
            two_words "ABOUT" "ME"];
    header [word_opt "ACHIEVEMENT" "S"; word_opt "AWARD" "S";
            word_opt "HONOR" "S"];
    header [word_opt "PUBLICATION" "S"; word_ci "RESEARCH"];
    header [word_opt "LANGUAGE" "S"; word_opt "INTEREST" "S";
            word_opt "HOBBIE" "S"] ].

Definition countSections (text : jsstring) : Z :=
  Z.of_nat (List.length (List.filter (fun pattern => test pattern text)
                                     sectionPatterns)).

Definition c_dot : N := 46.
Definition c_dash : N := 45.

(** [[\w.-]] *)
Definition mail_char (c : N) : bool := is_word c || (c =? c_dot)%N || (c =? c_dash)%N.
(** [[-\s\.]] *)
Definition phone_sep (c : N) : bool := (c =? c_dash)%N || is_space c || (c =? c_dot)%N.

(** [[\w.-]+@[\w.-]+\.\w+] *)
Definition re_email : regex :=
  CatL [Plus (Chr mail_char); Chr (N.eqb 64); Plus (Chr mail_char);
        Chr (N.eqb c_dot); Plus (Chr is_word)].

(** [[\+]?[(]?[0-9]{1,3}[)]?[-\s\.]?[(]?[0-9]{1,4}[)]?[-\s\.]?[0-9]{1,4}[-\s\.]?[0-9]{1,9}] *)
Definition re_phone : regex :=
  CatL [Opt (Chr (N.eqb 43)); Opt (Chr (N.eqb 40)); Rep1 3 (Chr is_digit);
        Opt (Chr (N.eqb 41)); Opt (Chr phone_sep); Opt (Chr (N.eqb 40));
        Rep1 4 (Chr is_digit); Opt (Chr (N.eqb 41)); Opt (Chr phone_sep);
        Rep1 4 (Chr is_digit); Opt (Chr phone_sep); Rep1 9 (Chr is_digit)].

Definition checkContactInfo (text : jsstring) : bool :=
  let hasEmail := test re_email text in
  let hasPhone := test re_phone text in
  hasEmail || hasPhone.

(** [\b(javascript|python|java|react|node|sql|aws|docker|git)\b] under i *)
Definition re_tech_keywords : regex :=
  header (List.map word_ci
    ["javascript"; "python"; "java"; "react"; "node"; "sql"; "aws";
     "docker"; "git"]%string).

(** [a && a.length > 0] on an optional array *)
Definition non_empty {A : Type} (a : option (list A)) : bool :=
  match a with Some (_ :: _) => true | _ => false end.

Definition checkSkillsPresence (text : jsstring) (resumeData : option ResumeData)
  : bool :=
  match resumeData with
  | Some {| skills := Some ((_ :: _) as sk) |} =>
      List.existsb (fun s => non_empty (skill_list s)) sk
  | _ =>
      let hasSkillsSection := test re_skills_section text in
      let hasTechKeywords := test re_tech_keywords text in
      hasSkillsSection || hasTechKeywords
  end.

Definition opt_dot : regex := Opt (Chr (N.eqb c_dot)).

(** [b\.?s\.?] and the like *)
Definition abbrev2 (a b : string) : regex :=
  CatL [word_ci a; opt_dot; word_ci b; opt_dot].
(** [b\.?tech] *)
Definition abbrev_tech (a : string) : regex :=
  CatL [word_ci a; opt_dot; word_ci "tech"].

Definition re_degree : regex :=
  header [word_ci "bachelor"; word_ci "master"; abbrev2 "b" "s";
          abbrev2 "m" "s"; abbrev2 "b" "e"; abbrev2 "m" "e";
          abbrev_tech "b"; abbrev_tech "m"; word_ci "mba"; word_ci "phd"].

Definition checkEducationPresence (text : jsstring) (resumeData : option ResumeData)
  : bool :=
  match resumeData with
  | Some {| education := Some (_ :: _) |} => true
  | _ =>
      let hasEducationSection := test re_education_section text in
      let hasDegree := test re_degree text in
      hasEducationSection || hasDegree
  end.

(** [\b(EXPERIENCE|WORK\s*EXPERIENCE|EMPLOYMENT)\b] under i *)
Definition re_experience_header : regex :=
  header [word_ci "EXPERIENCE"; two_words "WORK" "EXPERIENCE";
          word_ci "EMPLOYMENT"].

Definition re_job_indicators : regex :=
  header (List.map word_ci
    ["worked"; "developed"; "managed"; "led"; "created"; "implemented";
     "designed"]%string).

Definition checkExperiencePresence (text : jsstring)
  (resumeData : option ResumeData) : bool :=
  match resumeData with
  | Some {| workExperience := Some ((_ :: _) as we) |} =>
      List.existsb (fun exp => non_empty (exp_bullets exp)) we
  | _ =>
      let hasExperienceSection := test re_experience_header text in
      let hasJobIndicators := test re_job_indicators text in
      hasExperienceSection && hasJobIndicators
  end.

Definition checkProjectsPresence (text : jsstring)
  (resumeData : option ResumeData) : bool :=
  match resumeData with
  | Some {| projects := Some ((_ :: _) as ps) |} =>
      List.existsb (fun p => non_empty (proj_bullets p)) ps
  | _ =>
      let hasProjectsSection := test re_projects_section text in
      hasProjectsSection
  end.

(** [x?.length || 0] *)
Definition length_or_0 {A : Type} (a : option (list A)) : Z :=
  match a with Some l => Z.of_nat (List.length l) | None => 0 end.

(** [/^[\s]*[•\-\*]\s/gm] *)
Definition re_bullet : regex :=
  CatL [LineStart; Star (Chr is_space); Chr (one_of [8226; 45; 42]%N);
        Chr is_space].

Definition countBulletPoints (text : jsstring) (resumeData : option ResumeData)
  : Z :=
  let count := 0 in
  let count :=
    match resumeData with
    | Some {| workExperience := Some we |} =>
        count + List.fold_left (fun sum exp => sum + length_or_0 (exp_bullets exp)) we 0
    | _ => count
    end in
  let count :=
    match resumeData with
    | Some {| projects := Some ps |} =>
        count + List.fold_left (fun sum proj => sum + length_or_0 (proj_bullets proj)) ps 0
    | _ => count
    end in
  let textBullets := match_count re_bullet text in
  Z.max count textBullets.

Definition techSkills : list jsstring :=
  List.map lit
  ["javascript"; "typescript"; "python"; "java"; "c++"; "c#"; "go"; "rust";
   "ruby"; "php";
   "react"; "angular"; "vue"; "node"; "express"; "django"; "flask"; "spring";
   "mysql"; "postgresql"; "mongodb"; "redis"; "elasticsearch";
   "aws"; "azure"; "gcp"; "docker"; "kubernetes"; "terraform";
   "git"; "jira"; "agile"; "scrum"; "rest"; "graphql"; "api";
   "html"; "css"; "sass"; "tailwind"; "bootstrap";
   "machine learning"; "tensorflow"; "pytorch"; "pandas"; "numpy";
   "tableau"; "power bi"; "excel"; "sql"]%string.

(* ===================================================================== *)
(** ** Input quality assessment *)
(* ===================================================================== *)

Section Assessment.

(** [String.prototype.toLowerCase] is the host's Unicode case mapping; the
    development is parametric in it. *)
Variable toLowerCase : jsstring -> jsstring.

Definition countUniqueSkills (text : jsstring) (resumeData : option ResumeData)
  : Z :=
  let skills_set : list jsstring := [] in
  let skills_set :=
    match resumeData with
    | Some {| skills := Some sk |} =>
        List.fold_left
          (fun acc category =>
             match skill_list category with
             | Some l =>
                 List.fold_left (fun acc skill => set_add (toLowerCase skill) acc) l acc
             | None => acc
             end)
          sk skills_set
    | _ => skills_set
    end in
  let textLower := toLowerCase text in
  let skills_set :=
    List.fold_left
      (fun acc skill => if includes textLower skill then set_add skill acc else acc)
      techSkills skills_set in
  Z.of_nat (List.length skills_set).

(** [/\s+/] *)
Definition re_spaces : regex := Plus (Chr is_space).

Definition assessInputQuality (input : NormalModeInput) : InputQualityAssessment :=
  let resumeText := resumeText input in
  let resumeData := resumeData input in
  let issues : list string := [] in

  (* Content metrics *)
  let wordCount :=
    Z.of_nat (List.length
      (List.filter (fun w => (0 <? List.length w)%nat)
                   (split re_spaces (trim resumeText)))) in
  let sectionCount := countSections resumeText in
  let hasContactInfo := checkContactInfo resumeText in
  let hasSkills := checkSkillsPresence resumeText resumeData in
  let hasEducation := checkEducationPresence resumeText resumeData in
  let hasExperience := checkExperiencePresence resumeText resumeData in
  let hasProjects := checkProjectsPresence resumeText resumeData in
  let bulletCount := countBulletPoints resumeText resumeData in
  let uniqueSkillCount := countUniqueSkills resumeText resumeData in

  let contentMetrics := {|
    wordCount := wordCount;
    sectionCount := sectionCount;
    hasContactInfo := hasContactInfo;
    hasSkills := hasSkills;
    hasEducation := hasEducation;
    hasExperience := hasExperience;
    hasProjects := hasProjects;
    bulletCount := bulletCount;
    uniqueSkillCount := uniqueSkillCount
  |} in

  (* Validate input *)
  let issues := if wordCount <? 50
    then issues ++ ["Resume text too short (< 50 words)"%string] else issues in
  let issues := if wordCount <? 100
    then issues ++ ["Resume appears incomplete"%string] else issues in
  let issues := if negb hasContactInfo
    then issues ++ ["Missing contact information"%string] else issues in
  let issues := if negb hasSkills && negb hasExperience && negb hasProjects
    then issues ++ ["No substantive content detected"%string] else issues in
  let issues := if sectionCount <? 2
    then issues ++ ["Missing standard resume sections"%string] else issues in

  (* Calculate quality score based on content metrics *)
  let qualityScore := 0 in

  (* Word count contribution (0-20 points) *)
  let qualityScore :=
    if 400 <=? wordCount then qualityScore + 20
    else if 200 <=? wordCount then qualityScore + 15
    else if 100 <=? wordCount then qualityScore + 10
    else if 50 <=? wordCount then qualityScore + 5
    else qualityScore in

  (* Section presence contribution (0-30 points) *)
  let qualityScore := if hasContactInfo then qualityScore + 5 else qualityScore in
  let qualityScore := if hasSkills then qualityScore + 8 else qualityScore in
  let qualityScore := if hasEducation then qualityScore + 5 else qualityScore in
  let qualityScore := if hasExperience then qualityScore + 7 else qualityScore in
  let qualityScore := if hasProjects then qualityScore + 5 else qualityScore in

  (* Content depth contribution (0-30 points) *)
  let qualityScore :=
    if 10 <=? bulletCount then qualityScore + 15
    else if 5 <=? bulletCount then qualityScore + 10
    else if 2 <=? bulletCount then qualityScore + 5
    else qualityScore in

  let qualityScore :=
    if 10 <=? uniqueSkillCount then qualityScore + 15
    else if 5 <=? uniqueSkillCount then qualityScore + 10
    else if 2 <=? uniqueSkillCount then qualityScore + 5
    else qualityScore in

  (* Section count contribution (0-20 points) *)
  let qualityScore :=
    if 5 <=? sectionCount then qualityScore + 20
    else if 3 <=? sectionCount then qualityScore + 15
    else if 2 <=? sectionCount then qualityScore + 10
    else if 1 <=? sectionCount then qualityScore + 5
    else qualityScore in

  (* Determine quality level *)
  let '(quality, isValid) :=
    if 80 <=? qualityScore then (excellent, true)
    else if 60 <=? qualityScore then (good, true)
    else if 40 <=? qualityScore then (fair, true)
    else if 20 <=? qualityScore then (poor, true)
    else (invalid, false) in

  {| isValid := isValid;
     quality := quality;
     qualityScore := qualityScore;
     issues := issues;
     contentMetrics := contentMetrics |}.

End Assessment.

(** The case mapping restricted to ASCII, used to run the assessment on
    concrete ASCII resumes. *)
Definition ascii_toLowerCase (s : jsstring) : jsstring :=
  List.map (fun c => if is_upper c then (c + 32)%N else c) s.

(* ===================================================================== *)
(** ** Candidate level normalisation *)
(* ===================================================================== *)

(** [CandidateLevel] is declared outside the sources; a level is the
    string the [switch] compares. *)
Definition CandidateLevel := string.

Definition getNormalizedWeights (candidateLevel : CandidateLevel)
  : NormalizedWeights :=
  if String.eqb candidateLevel "fresher" then
    {| skills_keywords := 35; experience := 0; education_w := 18;
       projects_w := 20; certifications := 8; basic_structure := 6;
       content_structure := 6; competitive := 3; culture_fit := 2;
       qualitative := 2 |}
  else if String.eqb candidateLevel "junior" then
    {| skills_keywords := 30; experience := 12; education_w := 12;
       projects_w := 16; certifications := 6; basic_structure := 7;
       content_structure := 8; competitive := 4; culture_fit := 3;
       qualitative := 2 |}
  else if String.eqb candidateLevel "mid" then
    {| skills_keywords := 25; experience := 25; education_w := 6;
       projects_w := 10; certifications := 5; basic_structure := 8;
       content_structure := 10; competitive := 5; culture_fit := 3;
       qualitative := 3 |}
  else (* 'senior', default *)
    {| skills_keywords := 22; experience := 30; education_w := 4;
       projects_w := 8; certifications := 4; basic_structure := 8;
       content_structure := 10; competitive := 7; culture_fit := 4;
       qualitative := 3 |}.

(** The own properties of the table. *)
Definition own_weight (weights : NormalizedWeights) (key : string)
  : option float :=
  if String.eqb key "skills_keywords" then Some (skills_keywords weights)
  else if String.eqb key "experience" then Some (experience weights)
  else if String.eqb key "education" then Some (education_w weights)
  else if String.eqb key "projects" then Some (projects_w weights)
  else if String.eqb key "certifications" then Some (certifications weights)
  else if String.eqb key "basic_structure" then Some (basic_structure weights)
  else if String.eqb key "content_structure" then Some (content_structure weights)
  else if String.eqb key "competitive" then Some (competitive weights)
  else if String.eqb key "culture_fit" then Some (culture_fit weights)
  else if String.eqb key "qualitative" then Some (qualitative weights)
  else None.

(** The property names every object literal inherits. *)
Definition inherited_names : list string :=
  ["constructor"; "__defineGetter__"; "__defineSetter__"; "hasOwnProperty";
   "__lookupGetter__"; "__lookupSetter__"; "isPrototypeOf";
   "propertyIsEnumerable"; "toString"; "valueOf"; "__proto__";
   "toLocaleString"]%string.

Definition inherited_property (key : string) : bool :=
  List.existsb (String.eqb key) inherited_names.

(** [weights[tierKey]]: an own property of the table, else a member found
    on the prototype, else [undefined]. *)
Definition weight_of_key (weights : NormalizedWeights) (key : string)
  : option WeightValue :=
  match own_weight weights key with
  | Some w => Some (Num w)
  | None => if inherited_property key then Some (Member key) else None
  end.

Section ApplyWeights.

Context {R : Type}.

(** The body of the loop: the tier written under [key].  [??] falls back
    to the tier's own weight only when the lookup is [undefined]. *)
Definition reweigh (weights : NormalizedWeights) (key : string)
  (tier : TierScore R) : TierScore R :=
  let newWeight :=
    match weight_of_key weights key with
    | Some w => w
    | None => weight tier
    end in
  {| percentage := percentage tier;
     weight := newWeight;
     weighted_contribution :=
       (percentage tier * to_number newWeight / 100)%float;
     tier_rest := tier_rest tier |}.

(** [normalizedScores[key] = value]: a property is added, except for the
    key [__proto__], where the assignment sets the prototype of
    [normalizedScores] and adds no property. *)
Definition assign (key : string) (value : TierScore R)
  (normalizedScores : gmap string (TierScore R)) : gmap string (TierScore R) :=
  if String.eqb key "__proto__" then normalizedScores
  else <[key := value]> normalizedScores.

Definition applyNormalizedWeights (tierScores : gmap string (TierScore R))
  (candidateLevel : CandidateLevel) : gmap string (TierScore R) :=
  let weights := getNormalizedWeights candidateLevel in
  let normalizedScores : gmap string (TierScore R) := ∅ in
  List.fold_left
    (fun normalizedScores '(key, tier) =>
       assign key (reweigh weights key tier) normalizedScores)
    (map_to_list tierScores) normalizedScores.

End ApplyWeights.

(* ===================================================================== *)
(** ** Score adjustment *)
(* ===================================================================== *)

Definition calculateAdjustedScore (baseScore : float)
  (inputQuality : InputQualityAssessment) (candidateLevel : CandidateLevel)
  : ScoreAdjustment :=
  let '(qualityMultiplier, explanation) :=
    match quality inputQuality with
    | excellent =>
        (1.0%float, "Full scoring applied - excellent input quality"%string)
    | good => (0.95%float, "Minor quality adjustment applied"%string)
    | fair =>
        (0.85%float, "Quality adjustment applied - some content missing"%string)
    | poor =>
        (0.70%float, "Significant quality adjustment - incomplete resume"%string)
    | invalid =>
        (0.40%float,
         "Major quality penalty - resume appears invalid or empty"%string)
    end in

  (* Candidate level bonus for freshers with good content *)
  let '(candidateLevelBonus, explanation) :=
    if String.eqb candidateLevel "fresher"
       && negb (match quality inputQuality with invalid => true | _ => false end)
    then
      if hasProjects (contentMetrics inputQuality)
         && (5 <=? uniqueSkillCount (contentMetrics inputQuality))
      then (5%float,
            String.append explanation
              " | Fresher bonus applied for strong projects/skills")
      else (0%float, explanation)
    else (0%float, explanation) in

  let adjustedBase := (baseScore * qualityMultiplier)%float in
  let finalScore :=
    Math_min 100 (Math_max 0 (Math_round (adjustedBase + candidateLevelBonus))) in

  {| baseScore := baseScore;
     qualityMultiplier := qualityMultiplier;
     candidateLevelBonus := candidateLevelBonus;
     finalScore := finalScore;
     explanation := explanation |}.

(* ===================================================================== *)
(** ** Confidence alignment *)
(* ===================================================================== *)

Definition calculateAlignedConfidence (score : float)
  (inputQuality : InputQualityAssessment) (hasJD : bool) : ConfidenceLevel :=
  if (85 <=? score)%float then High
  else
    let confidencePoints := 0 in
    (* Input quality contribution (0-4 points) *)
    let confidencePoints :=
      match quality inputQuality with
      | excellent => confidencePoints + 4
      | good => confidencePoints + 3
      | fair => confidencePoints + 2
      | poor => confidencePoints + 1
      | invalid => confidencePoints + 0
      end in
    (* Score quality contribution (0-4 points) *)
    let confidencePoints :=
      if (75 <=? score)%float then confidencePoints + 4
      else if (65 <=? score)%float then confidencePoints + 3
      else if (55 <=? score)%float then confidencePoints + 2
      else if (45 <=? score)%float then confidencePoints + 1
      else confidencePoints in
    (* JD presence bonus (0-1 point) *)
    let confidencePoints := if hasJD then confidencePoints + 1 else confidencePoints in
    (* Content completeness bonus (0-1 point) *)
    let contentMetrics := contentMetrics inputQuality in
    let sectionsPresent :=
      Z.of_nat (List.length (List.filter (fun b : bool => b)
        [ hasContactInfo contentMetrics;
          hasSkills contentMetrics;
          hasEducation contentMetrics;
          hasExperience contentMetrics || hasProjects contentMetrics ])) in
    let confidencePoints :=
      if 4 <=? sectionsPresent then confidencePoints + 1 else confidencePoints in
    if 7 <=? confidencePoints then High
    else if 4 <=? confidencePoints then Medium
    else Low.

(* ===================================================================== *)
(** ** The job-fetch service *)
(* ===================================================================== *)

Module Apify.

(** What a [throw] carries: an [Error] object with its message, or any
    other value. *)
Inductive Thrown :=
| ErrorObject (message : string)
| OtherValue (description : string).

(** An awaited computation returns or throws. *)
Inductive Outcome (A : Type) :=
| Returned (a : A)
| Threw (e : Thrown).
Arguments Returned {A} _.
Arguments Threw {A} _.

Definition bind {A B : Type} (m : Outcome A) (f : A -> Outcome B) : Outcome B :=
  match m with
  | Returned a => f a
  | Threw e => Threw e
  end.

Notation "'await' x ':=' m 'in' k" := (bind m (fun x => k))
  (at level 10, x name, m at level 100, k at level 200).

(** [try { body } catch (error) { handler }] *)
Definition try_catch {A : Type} (body : Outcome A) (handler : Thrown -> Outcome A)
  : Outcome A :=
  match body with
  | Returned a => Returned a
  | Threw e => handler e
  end.

(** [error instanceof Error ? error.message : fallback] *)
Definition message_or (error : Thrown) (fallback : string) : string :=
  match error with
  | ErrorObject m => m
  | OtherValue _ => fallback
  end.

(** The [{ data, error }] pair a store call resolves to. *)
Record Response (A : Type) := {
  data : option A;
  error : option Thrown
}.
Arguments data {A} _.
Arguments error {A} _.

(** Rows of the two tables ([../types/jobs] is not among the sources): the
    columns the service reads. *)
Record JobFetchConfig := {
  id : string;
  platform_name : string;
  is_active : bool
}.

Record JobSyncLog := {
  config_id : string;
  status : string;
  jobs_fetched : option float;
  jobs_created : option float;
  created_at : string
}.

Record ApifySearchConfig := {
  keywords : option (list string);
  location : option string;
  jobType : option string;
  experienceLevel : option string;
  maxResults : option float
}.

Record HttpResponse := { ok : bool }.

(** The remote collaborators: the store, the function runner and the HTTP
    endpoint, each given by what a call resolves to.  [select_sync_logs] is
    the unordered [select('*')] on the log table: the rows come in the
    order the store chooses. *)
Record Remote := {
  select_config_by_id : string -> Outcome (Response JobFetchConfig);
  select_sync_logs : Outcome (Response (list JobSyncLog));
  functions_invoke : string -> string -> Outcome (Response string);
  fetch : string -> string -> Outcome HttpResponse
}.

Record OpResult := { success : bool; message : string }.

Record SyncStats := {
  totalSyncs : Z;
  successfulSyncs : Z;
  failedSyncs : Z;
  totalJobsFetched : float;
  totalJobsCreated : float;
  lastSyncDate : option string
}.

Record Validation := { valid : bool; errors : list string }.

Section Service.

Variable supabase : Remote.

Definition getConfigById (id : string) : Outcome (option JobFetchConfig) :=
  await r := select_config_by_id supabase id in
  match error r with
  | Some e => Threw e
  | None => Returned (data r)
  end.

Definition triggerManualSync (configId : string) : Outcome OpResult :=
  try_catch
    (await config := getConfigById configId in
     match config with
     | None => Threw (ErrorObject "Configuration not found")
     | Some config =>
         if negb (is_active config)
         then Threw (ErrorObject "Configuration is not active")
         else
           await r := functions_invoke supabase "apify-sync-jobs" configId in
           match error r with
           | Some e => Threw e
           | None =>
               Returned {| success := true;
                           message := "Sync initiated successfully" |}
           end
     end)
    (fun error =>
       Returned {| success := false;
                   message := message_or error "Failed to trigger sync" |}).

Definition testApifyConnection (apiToken actorId : string) : Outcome OpResult :=
  try_catch
    (await response :=
       fetch supabase
         (String.append "https://api.apify.com/v2/acts/" actorId)
         (String.append "Bearer " apiToken) in
     if negb (ok response)
     then Threw (ErrorObject "Invalid API token or Actor ID")
     else Returned {| success := true; message := "Connection successful" |})
    (fun error =>
       Returned {| success := false;
                   message := message_or error "Connection failed" |}).

(** [x || 0] on an optional number: 0 for null, 0, -0 and NaN. *)
Definition or_0 (x : option float) : float :=
  match x with
  | Some v => if is_nan v || (v =? 0)%float then 0%float else v
  | None => 0%float
  end.

Definition count_status (s : string) (logs : list JobSyncLog) : Z :=
  Z.of_nat (List.length (List.filter (fun l => String.eqb (status l) s) logs)).

Definition getSyncStats : Outcome SyncStats :=
  await r := select_sync_logs supabase in
  match error r with
  | Some e => Threw e
  | None =>
      let logs := data r in
      Returned
        match logs with
        | None =>
            {| totalSyncs := 0; successfulSyncs := 0; failedSyncs := 0;
               totalJobsFetched := 0; totalJobsCreated := 0;
               lastSyncDate := None |}
        | Some logs =>
            {| totalSyncs := Z.of_nat (List.length logs);
               successfulSyncs := count_status "success" logs;
               failedSyncs := count_status "failed" logs;
               totalJobsFetched :=
                 or_0 (Some (List.fold_left
                   (fun sum l => (sum + or_0 (jobs_fetched l))%float) logs 0%float));
               totalJobsCreated :=
                 or_0 (Some (List.fold_left
                   (fun sum l => (sum + or_0 (jobs_created l))%float) logs 0%float));
               lastSyncDate :=
                 match logs with
                 | l :: _ =>
                     if String.eqb (created_at l) "" then None
                     else Some (created_at l)
                 | [] => None
                 end |}
        end
  end.

End Service.

(** Truthiness of an optional number: absent, 0, -0 and NaN are falsy. *)
Definition truthy (x : option float) : bool :=
  match x with
  | Some v => negb (is_nan v || (v =? 0)%float)
  | None => false
  end.

Definition validateSearchConfig (config : ApifySearchConfig) : Validation :=
  let errors : list string := [] in
  let errors :=
    match keywords config with
    | None | Some [] => errors ++ ["At least one keyword is required"%string]
    | Some (_ :: _) => errors
    end in
  let errors :=
    match maxResults config with
    | Some m =>
        if truthy (Some m) && ((m <? 1)%float || (1000 <? m)%float)
        then errors ++ ["Max results must be between 1 and 1000"%string]
        else errors
    | None => errors
    end in
  {| valid := (List.length errors =? 0)%nat; errors := errors |}.

End Apify.

(* ===================================================================== *)
(** * Properties *)
(* ===================================================================== *)

(** ** The weight tables *)

Definition weights_total (w : NormalizedWeights) : float :=
  (skills_keywords w + experience w + education_w w + projects_w w
   + certifications w + basic_structure w + content_structure w
   + competitive w + culture_fit w + qualitative w)%float.

Definition weights_list (w : NormalizedWeights) : list float :=
  [skills_keywords w; experience w; education_w w; projects_w w;
   certifications w; basic_structure w; content_structure w;
   competitive w; culture_fit w; qualitative w].

(** The [switch] has four outcomes, whatever the level string is. *)
Lemma getNormalizedWeights_cases (level : CandidateLevel) :
  getNormalizedWeights level = getNormalizedWeights "fresher"
  \/ getNormalizedWeights level = getNormalizedWeights "junior"
  \/ getNormalizedWeights level = getNormalizedWeights "mid"
  \/ getNormalizedWeights level = getNormalizedWeights "senior".
Proof.
  unfold getNormalizedWeights.
  destruct (String.eqb level "fresher"); [now left|].
  destruct (String.eqb level "junior"); [now right; left|].
  destruct (String.eqb level "mid"); [now right; right; left|].
  now right; right; right.
Qed.

(** C10: for every candidate level, recognised or not, the ten weights of
    the table returned by [getNormalizedWeights] are integers and sum to
    exactly 100. *)
Theorem C10_weights_sum_to_100 (level : CandidateLevel) :
  weights_total (getNormalizedWeights level) = 100%float
  /\ Forall (fun w => Math_round w = w) (weights_list (getNormalizedWeights level)).
Proof.
  destruct (getNormalizedWeights_cases level) as [E | [E | [E | E]]];
    rewrite E; (split; [reflexivity | repeat constructor]).
Qed.

(** ** Confidence alignment *)

(** C5: a score of 85 or more gives [High], whatever the quality
    assessment and the job-description flag are. *)
Theorem C5_high_score_short_circuit (score : float)
  (inputQuality : InputQualityAssessment) (hasJD : bool) :
  (85 <=? score)%float = true ->
  calculateAlignedConfidence score inputQuality hasJD = High.
Proof.
  intros Hscore. unfold calculateAlignedConfidence. now rewrite Hscore.
Qed.

(** The assessment with the lowest marks everywhere. *)
Definition worst_assessment : InputQualityAssessment :=
  {| isValid := false; quality := invalid; qualityScore := 0;
     issues := [];
     contentMetrics :=
       {| wordCount := 0; sectionCount := 0; hasContactInfo := false;
          hasSkills := false; hasEducation := false; hasExperience := false;
          hasProjects := false; bulletCount := 0; uniqueSkillCount := 0 |} |}.

Lemma C5_witness :
  calculateAlignedConfidence 90 worst_assessment false = High.
Proof. apply C5_high_score_short_circuit. reflexivity. Defined.

(** Just below the threshold the same inputs only reach [Medium]: the
    result at 85 and above does not come from the point count. *)
Example confidence_below_threshold :
  calculateAlignedConfidence 84.9 worst_assessment false = Medium.
Proof. reflexivity. Qed.

(** ** Score adjustment *)

(** The multiplier table of the specification. *)
Definition multiplier_table (q : Quality) : float :=
  match q with
  | excellent => 1.00
  | good => 0.95
  | fair => 0.85
  | poor => 0.70
  | invalid => 0.40
  end.

(** The bonus condition of the specification. *)
Definition bonus_condition (inputQuality : InputQualityAssessment)
  (level : CandidateLevel) : Prop :=
  level = "fresher"%string
  /\ quality inputQuality <> invalid
  /\ hasProjects (contentMetrics inputQuality) = true
  /\ 5 <= uniqueSkillCount (contentMetrics inputQuality).

Definition clamp_0_100 (x : float) : float := Math_min 100 (Math_max 0 x).

(** Order facts on binary64 values, through their specification. *)
Section FloatOrder.

Lemma SFcompare_antisym (a b : spec_float) :
  SFcompare a b = option_map CompOpp (SFcompare b a).
Proof.
  destruct a as [[]|[]| |[] m1 e1], b as [[]|[]| |[] m2 e2]; simpl; try reflexivity.
  all: rewrite (Z.compare_antisym e1 e2);
    destruct (e1 ?= e2); simpl; try reflexivity;
    pose proof (Pos.compare_cont_antisym m1 m2 Eq) as H; simpl in H;
    rewrite <- H; now rewrite ?CompOpp_involutive.
Qed.

Lemma ltb_leb (a b : float) : (a <? b)%float = true -> (a <=? b)%float = true.
Proof.
  rewrite FloatAxioms.ltb_spec, FloatAxioms.leb_spec. unfold SFltb, SFleb.
  now destruct (SFcompare (Prim2SF a) (Prim2SF b)) as [[]|].
Qed.

Lemma is_nan_false_compare (a : float) :
  is_nan a = false -> Prim2SF a <> S754_nan.
Proof.
  unfold is_nan. rewrite negb_false_iff, FloatAxioms.eqb_spec. unfold SFeqb.
  intros H E. rewrite E in H. discriminate.
Qed.

Lemma not_ltb_leb (a b : float) :
  is_nan a = false -> is_nan b = false ->
  (b <? a)%float = false -> (a <=? b)%float = true.
Proof.
  intros Ha%is_nan_false_compare Hb%is_nan_false_compare.
  rewrite FloatAxioms.ltb_spec, FloatAxioms.leb_spec. unfold SFltb, SFleb.
  rewrite (SFcompare_antisym (Prim2SF a) (Prim2SF b)).
  destruct (Prim2SF a) as [[]|[]| |[] m1 e1] eqn:Ea; try congruence;
    destruct (Prim2SF b) as [[]|[]| |[] m2 e2] eqn:Eb; try congruence;
    simpl; try reflexivity; try discriminate;
    destruct (e2 ?= e1); simpl; try reflexivity; try discriminate;
    destruct (Pos.compare_cont Eq m2 m1); simpl; congruence.
Qed.

End FloatOrder.

(** NaN does not arise from numbers: the rounding of a non-negative
    mantissa never yields NaN, hence neither do the product with and the
    sum with a finite number, nor [Math_round]. *)
Section NotNaN.

Lemma is_nan_spec (x : float) : is_nan x = true <-> Prim2SF x = S754_nan.
Proof.
  unfold is_nan. rewrite negb_true_iff, FloatAxioms.eqb_spec. unfold SFeqb.
  destruct (Prim2SF x) as [[]|[]| |[] m e]; simpl;
    rewrite ?Z.compare_refl, ?Pos.compare_cont_refl; simpl;
    split; congruence.
Qed.

Lemma is_nan_false_iff (x : float) : is_nan x = false <-> Prim2SF x <> S754_nan.
Proof.
  rewrite <- is_nan_spec. destruct (is_nan x); split; congruence.
Qed.

Lemma shr_1_nonneg (mrs : shr_record) : 0 <= shr_m mrs -> 0 <= shr_m (shr_1 mrs).
Proof.
  destruct mrs as [[|[p|p|]|[p|p|]] r s]; simpl; lia.
Qed.

Lemma iter_shr_1_nonneg (n : positive) (mrs : shr_record) :
  0 <= shr_m mrs -> 0 <= shr_m (SpecFloat.iter_pos shr_1 n mrs).
Proof.
  revert mrs. induction n as [n IH|n IH|]; intros mrs H; simpl.
  - apply IH, IH, shr_1_nonneg, H.
  - apply IH, IH, H.
  - apply shr_1_nonneg, H.
Qed.

Lemma shr_fexp_nonneg (m e : Z) (l : location) :
  0 <= m -> 0 <= shr_m (fst (shr_fexp prec emax m e l)).
Proof.
  intros H. unfold shr_fexp, shr.
  assert (H0 : 0 <= shr_m (shr_record_of_loc m l))
    by (destruct l as [|[]]; exact H).
  destruct (fexp prec emax (Zdigits2 m + e) - e); simpl; try exact H0.
  now apply iter_shr_1_nonneg.
Qed.

Lemma round_nearest_even_nonneg (m : Z) (l : location) :
  0 <= m -> 0 <= round_nearest_even m l.
Proof.
  intros H. destruct l as [|[]]; simpl; try lia.
  destruct (Z.even m); lia.
Qed.

Lemma binary_round_aux_not_nan (s : bool) (m e : Z) (l : location) :
  0 <= m -> binary_round_aux prec emax s m e l <> S754_nan.
Proof.
  intros H. unfold binary_round_aux.
  pose proof (shr_fexp_nonneg m e l H) as H1.
  destruct (shr_fexp prec emax m e l) as [mrs' e']. simpl in H1.
  pose proof (shr_fexp_nonneg _ e' loc_Exact
                (round_nearest_even_nonneg _ (loc_of_shr_record mrs') H1)) as H2.
  destruct (shr_fexp prec emax
              (round_nearest_even (shr_m mrs') (loc_of_shr_record mrs')) e'
              loc_Exact) as [mrs'' e'']. simpl in H2.
  destruct (shr_m mrs'') as [|p|p]; try discriminate; try lia.
  destruct (e'' <=? emax - prec); discriminate.
Qed.

Lemma binary_normalize_not_nan (m e : Z) (szero : bool) :
  binary_normalize prec emax m e szero <> S754_nan.
Proof.
  unfold binary_normalize, binary_round.
  destruct m as [|p|p]; try discriminate;
    destruct (shl_align _ _ _) as [mz ez]; now apply binary_round_aux_not_nan.
Qed.

Lemma mul_not_nan (a b : float) (sb : bool) (mb : positive) (eb : Z) :
  is_nan a = false -> Prim2SF b = S754_finite sb mb eb ->
  is_nan (a * b)%float = false.
Proof.
  rewrite !is_nan_false_iff, FloatAxioms.mul_spec. intros Ha ->.
  destruct (Prim2SF a) as [sa|sa| |sa ma ea]; simpl; try discriminate;
    try congruence.
  now apply binary_round_aux_not_nan.
Qed.

Lemma add_not_nan (a b : float) :
  is_nan a = false ->
  (exists s, Prim2SF b = S754_zero s)
  \/ (exists s m e, Prim2SF b = S754_finite s m e) ->
  is_nan (a + b)%float = false.
Proof.
  rewrite !is_nan_false_iff, FloatAxioms.add_spec.
  intros Ha [[s ->] | (s & m & e & ->)];
    destruct (Prim2SF a) as [sa|sa| |sa ma ea]; simpl; try discriminate;
    try congruence.
  - now destruct sa, s.
  - apply binary_normalize_not_nan.
Qed.

Lemma float_of_Z_not_nan (z : Z) : is_nan (float_of_Z z) = false.
Proof.
  unfold float_of_Z. rewrite is_nan_false_iff.
  destruct (z <? 0); rewrite ?FloatAxioms.opp_spec, FloatAxioms.of_uint63_spec.
  - pose proof (binary_normalize_not_nan (to_Z (Uint63.of_Z (- z))) 0 false).
    destruct (binary_normalize _ _ _ _ _); simpl; congruence.
  - apply binary_normalize_not_nan.
Qed.

Lemma Math_round_not_nan (x : float) :
  is_nan x = false -> is_nan (Math_round x) = false.
Proof.
  intros H. unfold Math_round.
  destruct (Prim2SF x) as [s|s| |s m e]; try exact H.
  destruct (0 <=? e); [exact H|].
  destruct (_ =? 0); [now destruct s | apply float_of_Z_not_nan].
Qed.

End NotNaN.

(** A clamped value is a number in [0,100], or NaN when the argument is. *)
Lemma clamp_0_100_range (x : float) :
  is_nan x = false ->
  (0 <=? clamp_0_100 x)%float = true /\ (clamp_0_100 x <=? 100)%float = true.
Proof.
  intros Hx. unfold clamp_0_100.
  assert (Hy : is_nan (Math_max 0 x) = false
               /\ (0 <=? Math_max 0 x)%float = true).
  { unfold Math_max. rewrite Hx. simpl.
    destruct (0 <? x)%float eqn:E1; [split; [exact Hx | now apply ltb_leb]|].
    destruct (x <? 0)%float; split; reflexivity. }
  destruct Hy as [Hn H0]. unfold Math_min. rewrite Hn. simpl.
  destruct (100 <? Math_max 0 x)%float eqn:E1; [split; reflexivity|].
  destruct (Math_max 0 x <? 100)%float eqn:E2.
  - split; [exact H0 | now apply ltb_leb].
  - split; [exact H0 | now apply not_ltb_leb].
Qed.

Lemma clamp_0_100_nan : clamp_0_100 nan = nan.
Proof. reflexivity. Qed.

Lemma bonus_condition_dec (inputQuality : InputQualityAssessment)
  (level : CandidateLevel) :
  bonus_condition inputQuality level <->
  String.eqb level "fresher"
  && negb (match quality inputQuality with invalid => true | _ => false end)
  && (hasProjects (contentMetrics inputQuality)
      && (5 <=? uniqueSkillCount (contentMetrics inputQuality))) = true.
Proof.
  unfold bonus_condition.
  rewrite !andb_true_iff, negb_true_iff, String.eqb_eq, Z.leb_le.
  split.
  - intros (-> & Hq & Hp & Hs). repeat split; auto.
    destruct (quality inputQuality); congruence.
  - intros [[-> Hq] [Hp Hs]]. repeat split; auto.
    intros E. rewrite E in Hq. discriminate.
Qed.

Lemma five_not_zero : 5%float <> 0%float.
Proof.
  intros E. apply (f_equal Prim2SF) in E. vm_compute in E. discriminate.
Qed.

Lemma multiplier_table_finite (q : Quality) :
  exists m e, Prim2SF (multiplier_table q) = S754_finite false m e.
Proof. destruct q; vm_compute; eauto. Qed.

Lemma finalScore_eq (baseScore : float) (inputQuality : InputQualityAssessment)
  (level : CandidateLevel) :
  let r := calculateAdjustedScore baseScore inputQuality level in
  qualityMultiplier r = multiplier_table (quality inputQuality)
  /\ (candidateLevelBonus r = 5%float \/ candidateLevelBonus r = 0%float)
  /\ finalScore r =
       clamp_0_100 (Math_round (baseScore * qualityMultiplier r
                                + candidateLevelBonus r)%float).
Proof.
  cbv zeta. unfold calculateAdjustedScore.
  destruct (quality inputQuality), (String.eqb level "fresher"),
    (hasProjects (contentMetrics inputQuality)),
    (5 <=? uniqueSkillCount (contentMetrics inputQuality)); simpl; auto.
Qed.

(** The final score of a base score that is a number lies in [0,100]. *)
Lemma finalScore_range (baseScore : float) (inputQuality : InputQualityAssessment)
  (level : CandidateLevel) :
  is_nan baseScore = false ->
  let r := calculateAdjustedScore baseScore inputQuality level in
  (0 <=? finalScore r)%float = true /\ (finalScore r <=? 100)%float = true.
Proof.
  intros Hb. cbv zeta.
  destruct (finalScore_eq baseScore inputQuality level) as (Hm & Hbonus & ->).
  apply clamp_0_100_range, Math_round_not_nan, add_not_nan.
  - rewrite Hm.
    destruct (multiplier_table_finite (quality inputQuality)) as (m & e & E).
    exact (mul_not_nan _ _ _ _ _ Hb E).
  - destruct Hbonus as [-> | ->]; [right | left]; vm_compute; eauto.
Qed.

(** C1: [calculateAdjustedScore] looks the multiplier up from the quality
    label, gives the bonus 5 exactly under the fresher condition (0
    otherwise), and its final score is round(base * multiplier + bonus)
    clamped to [0,100], a number of that interval whenever the base score
    is a number; with base 80, invalid quality and level senior the final
    score is 32. *)
Theorem C1_adjusted_score (baseScore : float)
  (inputQuality : InputQualityAssessment) (level : CandidateLevel) :
  let r := calculateAdjustedScore baseScore inputQuality level in
  qualityMultiplier r = multiplier_table (quality inputQuality)
  /\ (candidateLevelBonus r = 5%float <-> bonus_condition inputQuality level)
  /\ (candidateLevelBonus r = 0%float <-> ~ bonus_condition inputQuality level)
  /\ finalScore r =
       clamp_0_100 (Math_round (baseScore * qualityMultiplier r
                                + candidateLevelBonus r)%float)
  /\ (is_nan baseScore = false ->
      (0 <=? finalScore r)%float = true /\ (finalScore r <=? 100)%float = true)
  /\ (forall q : InputQualityAssessment,
        quality q = invalid ->
        finalScore (calculateAdjustedScore 80 q "senior") = 32%float).
Proof.
  cbv zeta.
  destruct (finalScore_eq baseScore inputQuality level) as (Hm & _ & Hf).
  split; [exact Hm|].
  split; [|split; [|split; [exact Hf|split]]].
  - unfold calculateAdjustedScore.
    rewrite (bonus_condition_dec inputQuality level).
    destruct (quality inputQuality), (String.eqb level "fresher"),
      (hasProjects (contentMetrics inputQuality)),
      (5 <=? uniqueSkillCount (contentMetrics inputQuality)); simpl;
      (split; intros E; try reflexivity; try discriminate;
       symmetry in E; now apply five_not_zero in E).
  - unfold calculateAdjustedScore.
    rewrite (bonus_condition_dec inputQuality level).
    destruct (quality inputQuality), (String.eqb level "fresher"),
      (hasProjects (contentMetrics inputQuality)),
      (5 <=? uniqueSkillCount (contentMetrics inputQuality)); simpl;
      (split; [intros E1 E2; try discriminate; now apply five_not_zero in E1
              | intros E; try reflexivity; exfalso; now apply E]).
  - intros Hb. exact (finalScore_range baseScore inputQuality level Hb).
  - intros q Hq. unfold calculateAdjustedScore. rewrite Hq. reflexivity.
Qed.

Lemma C1_witness :
  finalScore (calculateAdjustedScore 80 worst_assessment "senior") = 32%float
  /\ (0 <=? finalScore (calculateAdjustedScore 80 worst_assessment "senior"))%float = true
  /\ (finalScore (calculateAdjustedScore 80 worst_assessment "senior") <=? 100)%float = true.
Proof.
  destruct (C1_adjusted_score 80 worst_assessment "senior")
    as (_ & _ & _ & _ & Hrange & H32).
  split; [apply H32; reflexivity | apply Hrange; reflexivity].
Defined.

(** The clamp at work: a bonus that would take the score to 105, and a
    negative base score. *)
Example adjusted_score_clamped_above :
  finalScore (calculateAdjustedScore 100
    {| isValid := true; quality := excellent; qualityScore := 100; issues := [];
       contentMetrics :=
         {| wordCount := 400; sectionCount := 5; hasContactInfo := true;
            hasSkills := true; hasEducation := true; hasExperience := false;
            hasProjects := true; bulletCount := 10; uniqueSkillCount := 5 |} |}
    "fresher") = 100%float.
Proof. reflexivity. Qed.

Example adjusted_score_of_nan :
  finalScore (calculateAdjustedScore nan worst_assessment "senior") = nan.
Proof. reflexivity. Qed.

Example adjusted_score_clamped_below :
  finalScore (calculateAdjustedScore (-20) worst_assessment "senior") = 0%float.
Proof. reflexivity. Qed.

(** ** Input quality assessment *)

(** The rubric of the specification: every threshold reached is worth five
    points, and every section present its fixed number of points. *)
Definition reached (thresholds : list Z) (x : Z) : Z :=
  Z.of_nat (List.length (List.filter (fun t => t <=? x) thresholds)).

Definition word_count_bucket (m : ContentMetrics) : Z :=
  5 * reached [50; 100; 200; 400] (wordCount m).

Definition points (present : bool) (p : Z) : Z := if present then p else 0.

Definition section_presence_bucket (m : ContentMetrics) : Z :=
  points (hasContactInfo m) 5 + points (hasSkills m) 8
  + points (hasEducation m) 5 + points (hasExperience m) 7
  + points (hasProjects m) 5.

Definition content_depth_bucket (m : ContentMetrics) : Z :=
  5 * reached [2; 5; 10] (bulletCount m)
  + 5 * reached [2; 5; 10] (uniqueSkillCount m).

Definition section_count_bucket (m : ContentMetrics) : Z :=
  5 * reached [1; 2; 3; 5] (sectionCount m).

(** The label of a rubric score. *)
Definition label_of (score : Z) : Quality :=
  if 80 <=? score then excellent
  else if 60 <=? score then good
  else if 40 <=? score then fair
  else if 20 <=? score then poor
  else invalid.

(** Proof steps over the body of [assessInputQuality]: its [let]s are
    named one at a time, so that no intermediate score is copied. *)
Ltac name_lets :=
  repeat match goal with
         | |- context C [let x := ?v in @?B x] =>
             let y := fresh x in
             set (y := v);
             let G := context C [B y] in
             change G; cbv beta
         end.

Ltac split_label :=
  repeat match goal with
         | |- context [let '(_, _) := (if ?b then _ else _) in _] =>
             destruct b eqn:?
         end.

Section AssessmentFacts.

Variable toLowerCase : jsstring -> jsstring.

(** The metrics record of the result is built before the score; it holds
    what the nine detectors return. *)
Lemma contentMetrics_assess (input : NormalModeInput) :
  contentMetrics (assessInputQuality toLowerCase input) =
  {| wordCount :=
       Z.of_nat (List.length
         (List.filter (fun w => (0 <? List.length w)%nat)
                      (split re_spaces (trim (resumeText input)))));
     sectionCount := countSections (resumeText input);
     hasContactInfo := checkContactInfo (resumeText input);
     hasSkills := checkSkillsPresence (resumeText input) (resumeData input);
     hasEducation := checkEducationPresence (resumeText input) (resumeData input);
     hasExperience := checkExperiencePresence (resumeText input) (resumeData input);
     hasProjects := checkProjectsPresence (resumeText input) (resumeData input);
     bulletCount := countBulletPoints (resumeText input) (resumeData input);
     uniqueSkillCount :=
       countUniqueSkills toLowerCase (resumeText input) (resumeData input) |}.
Proof.
  cbv beta delta [assessInputQuality]. name_lets. split_label; reflexivity.
Qed.

Lemma ladder4 (q x t1 t2 t3 t4 : Z) :
  t1 <= t2 <= t3 -> t3 <= t4 ->
  (if t4 <=? x then q + 20
   else if t3 <=? x then q + 15
   else if t2 <=? x then q + 10
   else if t1 <=? x then q + 5 else q)
  = q + 5 * reached [t1; t2; t3; t4] x.
Proof.
  intros H1 H2. unfold reached. simpl.
  destruct (t4 <=? x) eqn:E4, (t3 <=? x) eqn:E3, (t2 <=? x) eqn:E2,
    (t1 <=? x) eqn:E1; simpl; lia.
Qed.

Lemma ladder3 (q x t1 t2 t3 : Z) :
  t1 <= t2 <= t3 ->
  (if t3 <=? x then q + 15
   else if t2 <=? x then q + 10
   else if t1 <=? x then q + 5 else q)
  = q + 5 * reached [t1; t2; t3] x.
Proof.
  intros H1. unfold reached. simpl.
  destruct (t3 <=? x) eqn:E3, (t2 <=? x) eqn:E2, (t1 <=? x) eqn:E1;
    simpl; lia.
Qed.

Lemma step_points (q p : Z) (b : bool) :
  (if b then q + p else q) = q + points b p.
Proof. destruct b; simpl; lia. Qed.

Lemma reached_bounds (ts : list Z) (x : Z) :
  0 <= reached ts x <= Z.of_nat (List.length ts).
Proof.
  unfold reached. pose proof (List.filter_length_le (fun t => t <=? x) ts). lia.
Qed.

Lemma reached_all (ts : list Z) (x : Z) :
  List.Forall (fun t => t <= x) ts -> reached ts x = Z.of_nat (List.length ts).
Proof.
  unfold reached. induction 1 as [|t ts Ht _ IH]; [reflexivity|].
  simpl. apply Z.leb_le in Ht. rewrite Ht. simpl List.length. lia.
Qed.

(** The score of the result is the sum the code accumulates. *)
Lemma qualityScore_assess (input : NormalModeInput) :
  let m := contentMetrics (assessInputQuality toLowerCase input) in
  qualityScore (assessInputQuality toLowerCase input) =
  word_count_bucket m + section_presence_bucket m + content_depth_bucket m
  + section_count_bucket m.
Proof.
  cbv zeta. rewrite contentMetrics_assess.
  unfold word_count_bucket, section_presence_bucket, content_depth_bucket,
    section_count_bucket.
  cbn [wordCount sectionCount hasContactInfo hasSkills hasEducation
       hasExperience hasProjects bulletCount uniqueSkillCount].
  cbv beta delta [assessInputQuality]. name_lets.
  assert (E1 : qualityScore1 = qualityScore0 + 5 * reached [50; 100; 200; 400] wordCount0)
    by (apply ladder4; lia).
  assert (E2 : qualityScore2 = qualityScore1 + points hasContactInfo0 5)
    by apply step_points.
  assert (E3 : qualityScore3 = qualityScore2 + points hasSkills0 8)
    by apply step_points.
  assert (E4 : qualityScore4 = qualityScore3 + points hasEducation0 5)
    by apply step_points.
  assert (E5 : qualityScore5 = qualityScore4 + points hasExperience0 7)
    by apply step_points.
  assert (E6 : qualityScore6 = qualityScore5 + points hasProjects0 5)
    by apply step_points.
  assert (E7 : qualityScore7 = qualityScore6 + 5 * reached [2; 5; 10] bulletCount0)
    by (apply ladder3; lia).
  assert (E8 : qualityScore8 = qualityScore7 + 5 * reached [2; 5; 10] uniqueSkillCount0)
    by (apply ladder3; lia).
  assert (E9 : qualityScore9 = qualityScore8 + 5 * reached [1; 2; 3; 5] sectionCount0)
    by (apply ladder4; lia).
  clearbody qualityScore1 qualityScore2 qualityScore3 qualityScore4
    qualityScore5 qualityScore6 qualityScore7 qualityScore8 qualityScore9.
  subst qualityScore0 resumeText0 resumeData0.
  repeat match goal with
         | x := ?v |- _ => progress change v with x; clearbody x
         end.
  split_label; cbn [qualityScore];
    clear - E1 E2 E3 E4 E5 E6 E7 E8 E9; lia.
Qed.

Lemma quality_of_result (input : NormalModeInput) (a : InputQualityAssessment) :
  a = assessInputQuality toLowerCase input ->
  quality a = label_of (qualityScore a)
  /\ isValid a = negb (qualityScore a <? 20).
Proof.
  cbv beta delta [assessInputQuality label_of]. name_lets.
  repeat match goal with x := _ |- _ => clearbody x end.
  split_label; intros ->; cbn [quality qualityScore isValid];
    repeat match goal with H : (_ <=? _) = _ |- _ => rewrite H end;
    (split; [reflexivity|]);
    repeat match goal with
           | H : (_ <=? _) = true |- _ => apply Z.leb_le in H
           | H : (_ <=? _) = false |- _ => apply Z.leb_gt in H
           end;
    symmetry; rewrite ?negb_true_iff, ?negb_false_iff; lia.
Qed.

Lemma quality_assess (input : NormalModeInput) :
  quality (assessInputQuality toLowerCase input) =
  label_of (qualityScore (assessInputQuality toLowerCase input))
  /\ isValid (assessInputQuality toLowerCase input) =
     negb (qualityScore (assessInputQuality toLowerCase input) <? 20).
Proof. now apply (quality_of_result input). Qed.

End AssessmentFacts.

(** The points of a ladder at and between its thresholds. *)
Example word_count_ladder :
  List.map (fun x => 5 * reached [50; 100; 200; 400] x)
           [0; 49; 50; 99; 100; 199; 200; 399; 400; 1000]
  = [0; 0; 5; 5; 10; 10; 15; 15; 20; 20].
Proof. reflexivity. Qed.

Example depth_ladder :
  List.map (fun x => 5 * reached [2; 5; 10] x) [0; 1; 2; 4; 5; 9; 10; 50]
  = [0; 0; 5; 5; 10; 10; 15; 15].
Proof. reflexivity. Qed.

Example section_count_ladder :
  List.map (fun x => 5 * reached [1; 2; 3; 5] x) [0; 1; 2; 3; 4; 5; 9]
  = [0; 5; 10; 15; 15; 20; 20].
Proof. reflexivity. Qed.

(** What the nine detectors find in an input. *)
Definition detected_metrics (toLowerCase : jsstring -> jsstring)
  (input : NormalModeInput) : ContentMetrics :=
  {| wordCount :=
       Z.of_nat (List.length
         (List.filter (fun w => (0 <? List.length w)%nat)
                      (split re_spaces (trim (resumeText input)))));
     sectionCount := countSections (resumeText input);
     hasContactInfo := checkContactInfo (resumeText input);
     hasSkills := checkSkillsPresence (resumeText input) (resumeData input);
     hasEducation := checkEducationPresence (resumeText input) (resumeData input);
     hasExperience := checkExperiencePresence (resumeText input) (resumeData input);
     hasProjects := checkProjectsPresence (resumeText input) (resumeData input);
     bulletCount := countBulletPoints (resumeText input) (resumeData input);
     uniqueSkillCount :=
       countUniqueSkills toLowerCase (resumeText input) (resumeData input) |}.

(** C2: for every input, the metrics of the assessment are what the
    detectors find in that input, and the quality score is the sum of the
    four buckets (word count, section presence, content depth, section
    count) of those metrics, each a function of its own metrics; it never
    exceeds 100, and an input in which the detectors find at least 400
    words, 10 bullets, 10 skills and 5 sections with all five sections
    present scores 100 and is [excellent]. *)
Theorem C2_quality_score_buckets (toLowerCase : jsstring -> jsstring)
  (input : NormalModeInput) :
  let a := assessInputQuality toLowerCase input in
  let m := detected_metrics toLowerCase input in
  contentMetrics a = m
  /\ qualityScore a =
       word_count_bucket m + section_presence_bucket m
       + content_depth_bucket m + section_count_bucket m
  /\ 0 <= word_count_bucket m <= 20
  /\ 0 <= section_presence_bucket m <= 30
  /\ 0 <= content_depth_bucket m <= 30
  /\ 0 <= section_count_bucket m <= 20
  /\ 0 <= qualityScore a <= 100
  /\ (400 <= wordCount m ->
      hasContactInfo m = true -> hasSkills m = true ->
      hasEducation m = true -> hasExperience m = true ->
      hasProjects m = true ->
      10 <= bulletCount m -> 10 <= uniqueSkillCount m ->
      5 <= sectionCount m ->
      qualityScore a = 100 /\ quality a = excellent).
Proof.
  cbv zeta.
  pose proof (qualityScore_assess toLowerCase input) as HQ. cbv zeta in HQ.
  destruct (quality_assess toLowerCase input) as [HL _].
  pose proof (contentMetrics_assess toLowerCase input) as HM.
  fold (detected_metrics toLowerCase input) in HM.
  rewrite HM in HQ.
  set (a := assessInputQuality toLowerCase input) in *.
  set (m := detected_metrics toLowerCase input) in *.
  split; [exact HM|].
  assert (Hw : 0 <= word_count_bucket m <= 20).
  { unfold word_count_bucket.
    pose proof (reached_bounds [50; 100; 200; 400] (wordCount m)).
    simpl List.length in *. lia. }
  assert (Hp : 0 <= section_presence_bucket m <= 30).
  { unfold section_presence_bucket, points.
    destruct (hasContactInfo m), (hasSkills m), (hasEducation m),
      (hasExperience m), (hasProjects m); lia. }
  assert (Hd : 0 <= content_depth_bucket m <= 30).
  { unfold content_depth_bucket.
    pose proof (reached_bounds [2; 5; 10] (bulletCount m)).
    pose proof (reached_bounds [2; 5; 10] (uniqueSkillCount m)).
    simpl List.length in *. lia. }
  assert (Hs : 0 <= section_count_bucket m <= 20).
  { unfold section_count_bucket.
    pose proof (reached_bounds [1; 2; 3; 5] (sectionCount m)).
    simpl List.length in *. lia. }
  repeat (split; [assumption || lia|]).
  intros Hwc Hc Hsk He Hx Hpr Hb Hu Hsc.
  assert (E : qualityScore a = 100).
  { rewrite HQ.
    unfold word_count_bucket, section_presence_bucket, content_depth_bucket,
      section_count_bucket.
    rewrite Hc, Hsk, He, Hx, Hpr.
    rewrite !reached_all by (repeat constructor; lia).
    reflexivity. }
  split; [exact E|]. rewrite HL, E. reflexivity.
Qed.

(** A resume that reaches every top threshold. *)
Definition filler : jsstring :=
  List.concat (List.repeat (lit "lorem ") 400).

Definition strong_text : jsstring :=
  lit "Jane Doe jane.doe@example.com
SUMMARY
Backend engineer
EXPERIENCE
Developed payment services
EDUCATION
Bachelor of science
SKILLS
javascript typescript python java react node docker kubernetes aws git
PROJECTS
- one
- two
- three
- four
- five
- six
- seven
- eight
- nine
- ten
" ++ filler.

Definition strong_input : NormalModeInput :=
  {| resumeText := strong_text; resumeData := None; userType := None |}.

Lemma strong_input_metrics :
  contentMetrics (assessInputQuality ascii_toLowerCase strong_input) =
  {| wordCount := 446; sectionCount := 5; hasContactInfo := true;
     hasSkills := true; hasEducation := true; hasExperience := true;
     hasProjects := true; bulletCount := 10; uniqueSkillCount := 10 |}.
Proof. vm_compute. reflexivity. Qed.

(** The detectors on the strong resume: 446 words, 5 section headers, 10
    bullets and 10 skills found in the text itself. *)
Lemma strong_input_detected :
  detected_metrics ascii_toLowerCase strong_input =
  {| wordCount := 446; sectionCount := 5; hasContactInfo := true;
     hasSkills := true; hasEducation := true; hasExperience := true;
     hasProjects := true; bulletCount := 10; uniqueSkillCount := 10 |}.
Proof.
  rewrite <- strong_input_metrics. symmetry.
  apply (contentMetrics_assess ascii_toLowerCase strong_input).
Qed.

Lemma C2_witness :
  qualityScore (assessInputQuality ascii_toLowerCase strong_input) = 100
  /\ quality (assessInputQuality ascii_toLowerCase strong_input) = excellent.
Proof.
  apply (C2_quality_score_buckets ascii_toLowerCase strong_input);
    rewrite strong_input_detected; simpl; (reflexivity || lia).
Defined.

(** The empty resume and the strong one are told apart by what is found in
    them. *)
Example detected_in_empty_text :
  detected_metrics ascii_toLowerCase
    {| resumeText := []; resumeData := None; userType := None |} =
  {| wordCount := 0; sectionCount := 0; hasContactInfo := false;
     hasSkills := false; hasEducation := false; hasExperience := false;
     hasProjects := false; bulletCount := 0; uniqueSkillCount := 0 |}.
Proof. reflexivity. Qed.

(** *** The empty resume *)

Lemma countUniqueSkills_empty (toLowerCase : jsstring -> jsstring) :
  toLowerCase [] = [] -> countUniqueSkills toLowerCase [] None = 0.
Proof.
  intros H. unfold countUniqueSkills. rewrite H. reflexivity.
Qed.

(** C4: on the empty text without structured data the assessment reports
    zero words and sections, no section present, score 0, label [invalid]
    and [isValid = false]. *)
Theorem C4_empty_resume (toLowerCase : jsstring -> jsstring)
  (user : option UserType) :
  toLowerCase [] = [] ->
  let a := assessInputQuality toLowerCase
             {| resumeText := []; resumeData := None; userType := user |} in
  contentMetrics a =
    {| wordCount := 0; sectionCount := 0; hasContactInfo := false;
       hasSkills := false; hasEducation := false; hasExperience := false;
       hasProjects := false; bulletCount := 0; uniqueSkillCount := 0 |}
  /\ qualityScore a = 0
  /\ quality a = invalid
  /\ isValid a = false.
Proof.
  intros H. cbv zeta.
  set (input := {| resumeText := []; resumeData := None; userType := user |}).
  assert (Hm : contentMetrics (assessInputQuality toLowerCase input) =
    {| wordCount := 0; sectionCount := 0; hasContactInfo := false;
       hasSkills := false; hasEducation := false; hasExperience := false;
       hasProjects := false; bulletCount := 0; uniqueSkillCount := 0 |}).
  { rewrite contentMetrics_assess. cbn [input resumeText resumeData].
    rewrite (countUniqueSkills_empty toLowerCase H). reflexivity. }
  assert (Hq : qualityScore (assessInputQuality toLowerCase input) = 0).
  { pose proof (qualityScore_assess toLowerCase input) as HQ. cbv zeta in HQ.
    rewrite HQ, Hm. reflexivity. }
  destruct (quality_assess toLowerCase input) as [HL HV].
  rewrite Hq in HL, HV. auto.
Qed.

Lemma C4_witness :
  let a := assessInputQuality ascii_toLowerCase
             {| resumeText := []; resumeData := None; userType := None |} in
  contentMetrics a =
    {| wordCount := 0; sectionCount := 0; hasContactInfo := false;
       hasSkills := false; hasEducation := false; hasExperience := false;
       hasProjects := false; bulletCount := 0; uniqueSkillCount := 0 |}
  /\ qualityScore a = 0
  /\ quality a = invalid
  /\ isValid a = false.
Proof. apply (C4_empty_resume ascii_toLowerCase None). reflexivity. Defined.

(** *** Presence of skills: structured data and the regex fallback *)

(** [resumeData?.skills] *)
Definition structured_skills (input : NormalModeInput)
  : option (list SkillCategory) :=
  match resumeData input with
  | Some d => skills d
  | None => None
  end.

(** The fallback on the raw text: skills header or technology keyword. *)
Definition skills_regex_fallback (text : jsstring) : bool :=
  test re_skills_section text || test re_tech_keywords text.

(** At least one category has a non-empty list. *)
Definition some_category_listed (sk : option (list SkillCategory)) : bool :=
  match sk with
  | Some l => List.existsb (fun s => non_empty (skill_list s)) l
  | None => false
  end.

Lemma hasSkills_assess (toLowerCase : jsstring -> jsstring)
  (input : NormalModeInput) :
  hasSkills (contentMetrics (assessInputQuality toLowerCase input)) =
  checkSkillsPresence (resumeText input) (resumeData input).
Proof. now rewrite contentMetrics_assess. Qed.

(** The claim as the specification words it: whenever no category has a
    non-empty list, the signal is the regex fallback. *)
Definition fallback_whenever_nothing_listed : Prop :=
  forall (toLowerCase : jsstring -> jsstring) (input : NormalModeInput),
    some_category_listed (structured_skills input) = false ->
    hasSkills (contentMetrics (assessInputQuality toLowerCase input)) =
    skills_regex_fallback (resumeText input).

(** A parsed resume with one skills category and nothing in it, whose text
    names a technology. *)
Definition empty_category_input : NormalModeInput :=
  {| resumeText := lit "I write python";
     resumeData :=
       Some {| skills := Some [ {| category := lit "Languages";
                                   skill_list := Some [] |} ];
               education := None; workExperience := None; projects := None |};
     userType := None |}.

(** C6, refuted as worded: with a non-empty skills array the code returns
    the structured answer and never consults the text. *)
Lemma C6_counterexample : ~ fallback_whenever_nothing_listed.
Proof.
  intros H.
  specialize (H ascii_toLowerCase empty_category_input eq_refl).
  rewrite hasSkills_assess in H. vm_compute in H. discriminate.
Qed.

(** C6, amended: the regex fallback decides exactly when the skills array
    is absent or empty; a non-empty array decides by itself, as "some
    category has a non-empty list". *)
Theorem C6_skills_presence_policy (toLowerCase : jsstring -> jsstring)
  (input : NormalModeInput) :
  let signal := hasSkills (contentMetrics (assessInputQuality toLowerCase input)) in
  ((structured_skills input = None \/ structured_skills input = Some []) ->
   signal = skills_regex_fallback (resumeText input))
  /\ (forall c cs, structured_skills input = Some (c :: cs) ->
      signal = some_category_listed (structured_skills input)).
Proof.
  cbv zeta. rewrite hasSkills_assess.
  unfold structured_skills, checkSkillsPresence, skills_regex_fallback.
  destruct (resumeData input) as [[[[|c cs]|] ed we pr]|]; simpl; split;
    try reflexivity; try (intros [E | E]; congruence);
    try (intros c' cs' E; congruence); intros; reflexivity.
Qed.

Lemma C6_witness :
  hasSkills (contentMetrics
    (assessInputQuality ascii_toLowerCase
       {| resumeText := lit "I write python"; resumeData := None;
          userType := None |})) = true
  /\ hasSkills (contentMetrics
       (assessInputQuality ascii_toLowerCase empty_category_input)) = false.
Proof.
  split.
  - rewrite (proj1 (C6_skills_presence_policy ascii_toLowerCase
       {| resumeText := lit "I write python"; resumeData := None;
          userType := None |})); [reflexivity | left; reflexivity].
  - rewrite (proj2 (C6_skills_presence_policy ascii_toLowerCase
       empty_category_input)
       {| category := lit "Languages"; skill_list := Some [] |} []);
      reflexivity.
Defined.

(** ** Applying the weights *)

Section ApplyWeightsFacts.

Context {R : Type}.

Implicit Types (m acc : gmap string (TierScore R)) (key : string).

(** The loop assigns each entry once; what it leaves under a key is the
    rewritten input tier, or what the accumulator had; nothing is ever
    left under [__proto__]. *)
Lemma fold_assign_lookup (g : string -> TierScore R -> TierScore R)
  (l : list (string * TierScore R)) acc key :
  NoDup l.*1 ->
  List.fold_left (fun acc '(k, tier) => assign k (g k tier) acc) l acc !! key =
  match (list_to_map l : gmap string (TierScore R)) !! key with
  | Some tier =>
      if String.eqb key "__proto__" then acc !! key else Some (g key tier)
  | None => acc !! key
  end.
Proof.
  revert acc. induction l as [|[k tier] l IH]; intros acc Hnd.
  - reflexivity.
  - apply NoDup_cons in Hnd as [Hk Hnd]. cbn [List.fold_left].
    rewrite IH by assumption. cbn [list_to_map foldr uncurry].
    destruct (decide (k = key)) as [->|Hne].
    + rewrite lookup_insert_eq.
      rewrite (not_elem_of_list_to_map_1 l key Hk). unfold assign.
      destruct (String.eqb key "__proto__"); [reflexivity|].
      now rewrite lookup_insert_eq.
    + rewrite (lookup_insert_ne _ k key) by assumption.
      assert (Hacc : assign k (g k tier) acc !! key = acc !! key).
      { unfold assign. destruct (String.eqb k "__proto__"); [reflexivity|].
        now rewrite lookup_insert_ne. }
      rewrite Hacc. reflexivity.
Qed.

Lemma applyNormalizedWeights_lookup m (level : CandidateLevel) key :
  applyNormalizedWeights m level !! key =
  if String.eqb key "__proto__" then None
  else reweigh (getNormalizedWeights level) key <$> m !! key.
Proof.
  unfold applyNormalizedWeights.
  rewrite fold_assign_lookup by apply NoDup_fst_map_to_list.
  rewrite list_to_map_to_list, lookup_empty.
  destruct (m !! key), (String.eqb key "__proto__"); reflexivity.
Qed.

End ApplyWeightsFacts.

(** The weight the specification announces for a tier: the value of the
    level table, else the weight the tier had. *)
Definition new_weight {R : Type} (level : CandidateLevel) (key : string)
  (tier : TierScore R) : WeightValue :=
  match own_weight (getNormalizedWeights level) key with
  | Some w => Num w
  | None => weight tier
  end.

(** The claim as the specification words it, for every map of tiers. *)
Definition weights_applied_as_specified : Prop :=
  forall (tierScores : gmap string (TierScore unit)) (level : CandidateLevel),
    let out := applyNormalizedWeights tierScores level in
    dom out = dom tierScores
    /\ (forall key tier, tierScores !! key = Some tier ->
        exists tier',
          out !! key = Some tier'
          /\ weight tier' = new_weight level key tier
          /\ weighted_contribution tier' =
               (percentage tier * to_number (new_weight level key tier) / 100)%float).

Definition a_tier : TierScore unit :=
  {| percentage := 50; weight := Num 3; weighted_contribution := 1.5;
     tier_rest := tt |}.

(** Under the key [constructor] the lookup finds the inherited member:
    there is no fallback, the weight is that member and the contribution
    NaN.  Under [__proto__] the tier is dropped. *)
Example inherited_key_results :
  applyNormalizedWeights ({[ "constructor"%string := a_tier ]}) "senior"
  = {[ "constructor"%string :=
         {| percentage := 50; weight := Member "constructor";
            weighted_contribution := nan; tier_rest := tt |} ]}
  /\ applyNormalizedWeights ({[ "__proto__"%string := a_tier ]}) "senior" = ∅.
Proof. split; reflexivity. Qed.

(** C3, refuted as worded: a tier under a key that names a member of
    [Object.prototype] does not get its own weight back, and the tier
    under [__proto__] is dropped. *)
Lemma C3_counterexample : ~ weights_applied_as_specified.
Proof.
  intros H.
  destruct (H ({[ "__proto__"%string := a_tier ]}) "senior"%string) as [Hdom _].
  assert (Hin : "__proto__"%string ∈
                dom ({[ "__proto__"%string := a_tier ]}
                     : gmap string (TierScore unit)))
    by (apply elem_of_dom; eexists; reflexivity).
  rewrite <- Hdom in Hin. apply elem_of_dom in Hin as [t Ht].
  rewrite applyNormalizedWeights_lookup in Ht. discriminate.
Qed.

(** C3, amended: for a map none of whose keys names a member inherited
    from [Object.prototype] (the keys of the [TierScores] type are tier
    names), the output has exactly the tier keys of the input; under each
    key the weight is the level table's value (the tier's own weight when
    the table has no such key), the weighted contribution is
    percentage * newWeight / 100, and the other fields are the input's. *)
Theorem C3_apply_weights {R : Type} (tierScores : gmap string (TierScore R))
  (level : CandidateLevel) :
  (forall key, key ∈ dom tierScores -> inherited_property key = false) ->
  let out := applyNormalizedWeights tierScores level in
  dom out = dom tierScores
  /\ (forall key, tierScores !! key = None -> out !! key = None)
  /\ (forall key tier, tierScores !! key = Some tier ->
      exists tier',
        out !! key = Some tier'
        /\ weight tier' = new_weight level key tier
        /\ weighted_contribution tier' =
             (percentage tier * to_number (new_weight level key tier) / 100)%float
        /\ percentage tier' = percentage tier
        /\ tier_rest tier' = tier_rest tier).
Proof.
  intros Hkeys. cbv zeta.
  assert (Hproto : forall key, is_Some (tierScores !! key) ->
            String.eqb key "__proto__" = false
            /\ inherited_property key = false).
  { intros key Hk. apply elem_of_dom, Hkeys in Hk. split; [|exact Hk].
    destruct (String.eqb_spec key "__proto__") as [->|]; [|reflexivity].
    discriminate Hk. }
  split; [|split].
  - apply set_eq. intros key. rewrite !elem_of_dom.
    rewrite applyNormalizedWeights_lookup. split.
    + destruct (String.eqb key "__proto__"); [intros [? [=]]|].
      now rewrite fmap_is_Some.
    + intros Hk. destruct (Hproto key Hk) as [-> _].
      now rewrite fmap_is_Some.
  - intros key H. rewrite applyNormalizedWeights_lookup, H.
    now destruct (String.eqb key "__proto__").
  - intros key tier H.
    destruct (Hproto key (ex_intro _ tier H)) as [Hp Hi].
    rewrite applyNormalizedWeights_lookup, Hp, H.
    eexists. split; [reflexivity|].
    unfold reweigh, new_weight, weight_of_key.
    cbn [weight weighted_contribution percentage tier_rest].
    rewrite Hi.
    now destruct (own_weight (getNormalizedWeights level) key).
Qed.

(** Two tiers: one the tables know, one they do not. *)
Definition sample_tiers : gmap string (TierScore unit) :=
  {[ "skills_keywords"%string :=
       {| percentage := 80; weight := Num 25; weighted_contribution := 20;
          tier_rest := tt |};
     "red_flags"%string :=
       {| percentage := 50; weight := Num 3; weighted_contribution := 1.5;
          tier_rest := tt |} ]}.

Lemma sample_tiers_keys (key : string) :
  key ∈ dom sample_tiers -> inherited_property key = false.
Proof.
  unfold sample_tiers. rewrite dom_insert_L, dom_singleton_L.
  rewrite elem_of_union, !elem_of_singleton.
  intros [-> | ->]; reflexivity.
Qed.

Lemma C3_witness :
  (exists t, applyNormalizedWeights sample_tiers "fresher" !! "skills_keywords"%string = Some t
             /\ weight t = Num 35
             /\ weighted_contribution t = 28%float)
  /\ (exists t, applyNormalizedWeights sample_tiers "fresher" !! "red_flags"%string = Some t
             /\ weight t = Num 3
             /\ weighted_contribution t = 1.5%float)
  /\ applyNormalizedWeights sample_tiers "fresher" !! "experience"%string = None.
Proof.
  pose proof (C3_apply_weights sample_tiers "fresher" sample_tiers_keys)
    as (_ & Hnone & Hsome).
  split; [|split].
  - destruct (Hsome "skills_keywords"%string _ eq_refl) as (t & Ht & Hw & Hc & _).
    exists t. rewrite Ht, Hw, Hc. repeat split; reflexivity.
  - destruct (Hsome "red_flags"%string _ eq_refl) as (t & Ht & Hw & Hc & _).
    exists t. rewrite Ht, Hw, Hc. repeat split; reflexivity.
  - apply Hnone. reflexivity.
Defined.

(** ** The job-fetch service *)

Import Apify.

(** *** Search-config validation *)

Lemma validate_keywords_required (config : ApifySearchConfig) :
  keywords config = None \/ keywords config = Some [] ->
  valid (validateSearchConfig config) = false
  /\ In "At least one keyword is required"%string
        (errors (validateSearchConfig config)).
Proof.
  unfold validateSearchConfig.
  intros [E | E]; rewrite E; destruct (maxResults config) as [m|];
    try destruct (truthy (Some m) && ((m <? 1)%float || (1000 <? m)%float));
    simpl; auto.
Qed.

Lemma validate_range_checked (config : ApifySearchConfig) (m : float) :
  maxResults config = Some m -> truthy (Some m) = true ->
  (m <? 1)%float = true \/ (1000 <? m)%float = true ->
  valid (validateSearchConfig config) = false
  /\ In "Max results must be between 1 and 1000"%string
        (errors (validateSearchConfig config)).
Proof.
  unfold validateSearchConfig. intros E Ht Hr. rewrite E, Ht.
  assert (Hb : ((m <? 1)%float || (1000 <? m)%float) = true)
    by (destruct Hr as [-> | ->]; [reflexivity | apply orb_true_r]).
  rewrite Hb. destruct (keywords config) as [[|k ks]|]; simpl; auto.
Qed.

Lemma validate_accepts (config : ApifySearchConfig) :
  (exists k ks, keywords config = Some (k :: ks)) ->
  (maxResults config = None
   \/ exists m, maxResults config = Some m
                /\ (m <? 1)%float = false /\ (1000 <? m)%float = false) ->
  validateSearchConfig config = {| valid := true; errors := [] |}.
Proof.
  unfold validateSearchConfig. intros (k & ks & Ek) Hm. rewrite Ek.
  destruct Hm as [-> | (m & -> & H1 & H2)]; [reflexivity|].
  rewrite H1, H2, andb_false_r. reflexivity.
Qed.

(** A config with a keyword and [maxResults: 0]. *)
Definition zero_results_config : ApifySearchConfig :=
  {| keywords := Some ["software"%string]; location := None; jobType := None;
     experienceLevel := None; maxResults := Some 0%float |}.

(** C7, at the failing input: [maxResults] is present and below 1, yet the
    config is reported valid with no error, because the presence test
    [config.maxResults && ...] takes 0 for absent. *)
Theorem C7_zero_max_results_accepted :
  maxResults zero_results_config = Some 0%float
  /\ (0 <? 1)%float = true
  /\ validateSearchConfig zero_results_config = {| valid := true; errors := [] |}.
Proof. repeat split. Qed.

(** *** Sync statistics *)

(** The store answering a [select('*')] on the log table with [rows]. *)
Definition store_with_logs (rows : list JobSyncLog) : Remote :=
  {| select_config_by_id := fun _ => Returned {| data := None; error := None |};
     select_sync_logs := Returned {| data := Some rows; error := None |};
     functions_invoke := fun _ _ => Returned {| data := None; error := None |};
     fetch := fun _ _ => Returned {| ok := true |} |}.

(** The total of a column: the numbers are added in the order of the
    rows, in binary64, a missing or zero entry counting for 0. *)
Definition sum_of (f : JobSyncLog -> option float) (rows : list JobSyncLog)
  : float :=
  List.fold_left (fun sum l => (sum + or_0 (f l))%float) rows 0%float.

(** The counts are those of the rows returned, and the totals the sums of
    the columns taken in row order. *)
Lemma getSyncStats_counts (rows : list JobSyncLog) :
  exists stats,
    getSyncStats (store_with_logs rows) = Returned stats
    /\ totalSyncs stats = Z.of_nat (List.length rows)
    /\ successfulSyncs stats =
         Z.of_nat (List.length
           (List.filter (fun l => String.eqb (status l) "success") rows))
    /\ failedSyncs stats =
         Z.of_nat (List.length
           (List.filter (fun l => String.eqb (status l) "failed") rows))
    /\ totalJobsFetched stats = or_0 (Some (sum_of jobs_fetched rows))
    /\ totalJobsCreated stats = or_0 (Some (sum_of jobs_created rows)).
Proof.
  eexists. split; [reflexivity|]. repeat split; reflexivity.
Qed.

(** Whatever the rows are, the date reported is that of the first one. *)
Lemma getSyncStats_lastSyncDate (l : JobSyncLog) (rest : list JobSyncLog) :
  created_at l <> ""%string ->
  exists stats,
    getSyncStats (store_with_logs (l :: rest)) = Returned stats
    /\ lastSyncDate stats = Some (created_at l).
Proof.
  intros H. eexists. split; [reflexivity|]. cbn [data lastSyncDate].
  destruct (String.eqb_spec (created_at l) ""); [contradiction | reflexivity].
Qed.

(** The most recent timestamp among the rows: the greatest [created_at]
    (timestamps are ISO-8601 strings in one format, so the order on
    strings is the order in time). *)
Definition later (a b : string) : string := if String.ltb a b then b else a.

Definition most_recent (rows : list JobSyncLog) : option string :=
  match rows with
  | [] => None
  | l :: rest =>
      Some (List.fold_left (fun acc r => later acc (created_at r)) rest (created_at l))
  end.

(** Two syncs, returned by the store in the order they were inserted. *)
Definition two_syncs : list JobSyncLog :=
  [ {| config_id := "cfg-1"; status := "success";
       jobs_fetched := Some 10%float; jobs_created := Some 4%float;
       created_at := "2024-01-01T00:00:00+00:00" |};
    {| config_id := "cfg-1"; status := "failed";
       jobs_fetched := Some 0%float; jobs_created := None;
       created_at := "2024-02-01T00:00:00+00:00" |} ].

(** C8, at the failing input: the query has no ordering, and the date
    reported is that of the first row returned, here the older sync. *)
Theorem C8_last_sync_is_first_row :
  exists stats,
    getSyncStats (store_with_logs two_syncs) = Returned stats
    /\ lastSyncDate stats = Some "2024-01-01T00:00:00+00:00"%string
    /\ most_recent two_syncs = Some "2024-02-01T00:00:00+00:00"%string
    /\ lastSyncDate stats <> most_recent two_syncs.
Proof.
  eexists. split; [reflexivity|]. repeat split. discriminate.
Qed.

(** *** The sync trigger and the connection test *)

Section NeverThrows.

Variable supabase : Remote.

(** What the remote function call resolves to when it fails: a rejected
    promise, or a response that carries an error. *)
Definition invoke_fails (configId : string) (e : Thrown) : Prop :=
  functions_invoke supabase "apify-sync-jobs" configId = Threw e
  \/ exists r, functions_invoke supabase "apify-sync-jobs" configId = Returned r
               /\ error r = Some e.

Definition invoke_succeeds (configId : string) : Prop :=
  exists r, functions_invoke supabase "apify-sync-jobs" configId = Returned r
            /\ error r = None.

Definition failed (message : string) : OpResult :=
  {| success := false; message := message |}.

Lemma triggerManualSync_returns (configId : string) :
  exists r, triggerManualSync supabase configId = Returned r.
Proof.
  unfold triggerManualSync, try_catch, bind.
  destruct (getConfigById supabase configId) as [[c|]|e]; eauto.
  destruct (is_active c); simpl; eauto.
  destruct (functions_invoke supabase "apify-sync-jobs" configId) as [r|e]; eauto.
  destruct (error r); eauto.
Qed.

Lemma triggerManualSync_cases (configId : string) :
  (forall e, getConfigById supabase configId = Threw e ->
     triggerManualSync supabase configId =
     Returned (failed (message_or e "Failed to trigger sync")))
  /\ (getConfigById supabase configId = Returned None ->
     triggerManualSync supabase configId =
     Returned (failed "Configuration not found"))
  /\ (forall c, getConfigById supabase configId = Returned (Some c) ->
     is_active c = false ->
     triggerManualSync supabase configId =
     Returned (failed "Configuration is not active"))
  /\ (forall c e, getConfigById supabase configId = Returned (Some c) ->
     is_active c = true -> invoke_fails configId e ->
     triggerManualSync supabase configId =
     Returned (failed (message_or e "Failed to trigger sync")))
  /\ (forall c, getConfigById supabase configId = Returned (Some c) ->
     is_active c = true -> invoke_succeeds configId ->
     triggerManualSync supabase configId =
     Returned {| success := true; message := "Sync initiated successfully" |}).
Proof.
  unfold triggerManualSync, try_catch, bind, invoke_fails, invoke_succeeds.
  repeat split.
  - intros e ->. reflexivity.
  - intros ->. reflexivity.
  - intros c -> ->. reflexivity.
  - intros c e -> -> [-> | (r & -> & ->)]; reflexivity.
  - intros c -> -> (r & -> & ->). reflexivity.
Qed.

Definition fetch_actor (apiToken actorId : string) : Outcome HttpResponse :=
  fetch supabase (String.append "https://api.apify.com/v2/acts/" actorId)
        (String.append "Bearer " apiToken).

Lemma testApifyConnection_cases (apiToken actorId : string) :
  (forall e, fetch_actor apiToken actorId = Threw e ->
     testApifyConnection supabase apiToken actorId =
     Returned (failed (message_or e "Connection failed")))
  /\ (forall r, fetch_actor apiToken actorId = Returned r -> ok r = false ->
     testApifyConnection supabase apiToken actorId =
     Returned (failed "Invalid API token or Actor ID"))
  /\ (forall r, fetch_actor apiToken actorId = Returned r -> ok r = true ->
     testApifyConnection supabase apiToken actorId =
     Returned {| success := true; message := "Connection successful" |}).
Proof.
  unfold testApifyConnection, fetch_actor, try_catch, bind.
  repeat split.
  - intros e ->. reflexivity.
  - intros r -> ->. reflexivity.
  - intros r -> ->. reflexivity.
Qed.

End NeverThrows.

(** C9: the sync trigger and the connection test always return, never
    throw.  Every failure cause (store error, configuration not found,
    configuration inactive, remote invocation error; network error, refused
    token or actor) gives [success = false] with a message, and the call
    gives [success = true] otherwise. *)
Theorem C9_trigger_and_test_never_throw (supabase : Remote)
  (configId apiToken actorId : string) :
  (exists r, triggerManualSync supabase configId = Returned r
     /\ (success r = true <->
         exists c, getConfigById supabase configId = Returned (Some c)
                   /\ is_active c = true
                   /\ invoke_succeeds supabase configId)
     /\ (getConfigById supabase configId = Returned None ->
         r = failed "Configuration not found")
     /\ (forall c, getConfigById supabase configId = Returned (Some c) ->
         is_active c = false -> r = failed "Configuration is not active")
     /\ (forall c e, getConfigById supabase configId = Returned (Some c) ->
         is_active c = true -> invoke_fails supabase configId e ->
         r = failed (message_or e "Failed to trigger sync"))
     /\ (forall e, getConfigById supabase configId = Threw e ->
         r = failed (message_or e "Failed to trigger sync")))
  /\ (exists r, testApifyConnection supabase apiToken actorId = Returned r
     /\ (success r = true <->
         exists resp, fetch_actor supabase apiToken actorId = Returned resp
                      /\ ok resp = true)
     /\ (forall resp, fetch_actor supabase apiToken actorId = Returned resp ->
         ok resp = false -> r = failed "Invalid API token or Actor ID")
     /\ (forall e, fetch_actor supabase apiToken actorId = Threw e ->
         r = failed (message_or e "Connection failed"))).
Proof.
  split.
  - destruct (triggerManualSync_returns supabase configId) as [r Hr].
    destruct (triggerManualSync_cases supabase configId)
      as (Hthrow & Hnone & Hinactive & Hfail & Hok).
    exists r. split; [exact Hr|]. repeat split.
    + intros Hs.
      destruct (getConfigById supabase configId) as [[c|]|e] eqn:Ec.
      * destruct (is_active c) eqn:Ea.
        -- exists c. repeat split; try assumption.
           unfold invoke_succeeds.
           destruct (functions_invoke supabase "apify-sync-jobs" configId)
             as [resp|e] eqn:Ei.
           ++ destruct (error resp) as [e|] eqn:Ee; [|eauto].
              rewrite (Hfail c e eq_refl Ea) in Hr
                by (unfold invoke_fails; right; eauto).
              injection Hr as <-. discriminate.
           ++ rewrite (Hfail c e eq_refl Ea) in Hr
                by (unfold invoke_fails; now left).
              injection Hr as <-. discriminate.
        -- rewrite (Hinactive c eq_refl Ea) in Hr.
           injection Hr as <-. discriminate.
      * rewrite (Hnone eq_refl) in Hr. injection Hr as <-. discriminate.
      * rewrite (Hthrow e eq_refl) in Hr. injection Hr as <-. discriminate.
    + intros (c & Ec & Ea & Hi). rewrite (Hok c Ec Ea Hi) in Hr.
      now injection Hr as <-.
    + intros Ec. rewrite (Hnone Ec) in Hr. now injection Hr as <-.
    + intros c Ec Ea. rewrite (Hinactive c Ec Ea) in Hr. now injection Hr as <-.
    + intros c e Ec Ea Hi. rewrite (Hfail c e Ec Ea Hi) in Hr.
      now injection Hr as <-.
    + intros e Ec. rewrite (Hthrow e Ec) in Hr. now injection Hr as <-.
  - destruct (testApifyConnection_cases supabase apiToken actorId)
      as (Hthrow & Hrefused & Hok).
    destruct (fetch_actor supabase apiToken actorId) as [resp|e] eqn:Ef.
    + destruct (ok resp) eqn:Eo.
      * eexists. split; [apply (Hok resp eq_refl Eo)|]. repeat split.
        -- intros _. eauto.
        -- intros resp' [= <-] Eo'. congruence.
        -- intros e' [=].
      * eexists. split; [apply (Hrefused resp eq_refl Eo)|]. repeat split.
        -- intros [=].
        -- intros (resp' & [= <-] & Eo'). congruence.
        -- intros e' [=].
    + eexists. split; [apply (Hthrow e eq_refl)|]. repeat split.
      * intros [=].
      * intros (resp' & [=] & _).
      * intros resp' [=].
      * intros e' [= <-]. reflexivity.
Qed.

(** A store whose configuration [cfg-1] is switched off, and an endpoint
    that refuses the token. *)
Definition inactive_store : Remote :=
  {| select_config_by_id := fun id =>
       Returned {| data := Some {| id := id; platform_name := "linkedin";
                                   is_active := false |};
                   error := None |};
     select_sync_logs := Returned {| data := Some []; error := None |};
     functions_invoke := fun _ _ => Threw (OtherValue "unreachable");
     fetch := fun _ _ => Returned {| ok := false |} |}.

Lemma C9_witness :
  triggerManualSync inactive_store "cfg-1"
    = Returned (failed "Configuration is not active")
  /\ testApifyConnection inactive_store "token" "apify/indeed-scraper"
    = Returned (failed "Invalid API token or Actor ID").
Proof.
  destruct (C9_trigger_and_test_never_throw inactive_store "cfg-1" "token"
              "apify/indeed-scraper")
    as [(r & Hr & _ & _ & Hinactive & _) (r' & Hr' & _ & Hrefused & _)].
  split.
  - rewrite Hr. f_equal. eapply Hinactive; reflexivity.
  - rewrite Hr'. f_equal. eapply Hrefused; reflexivity.
Defined.

(* ===================================================================== *)
(** * Further functions of the two modules *)
(* ===================================================================== *)

(** ** Match band and interview probability *)

(** [MatchBand] is a union of string literals; the band is the string the
    function returns. *)
Definition MatchBand := string.

Definition getAlignedMatchBand (score : float) : MatchBand :=
  if (85 <=? score)%float then "Excellent Match"
  else if (75 <=? score)%float then "Very Good Match"
  else if (65 <=? score)%float then "Good Match"
  else if (55 <=? score)%float then "Fair Match"
  else if (45 <=? score)%float then "Below Average"
  else if (35 <=? score)%float then "Poor Match"
  else if (25 <=? score)%float then "Very Poor"
  else if (15 <=? score)%float then "Inadequate"
  else "Minimal Match".

Definition getAlignedInterviewProbability (score : float) : string :=
  if (85 <=? score)%float then "70-85%"
  else if (75 <=? score)%float then "55-70%"
  else if (65 <=? score)%float then "40-55%"
  else if (55 <=? score)%float then "25-40%"
  else if (45 <=? score)%float then "15-25%"
  else if (35 <=? score)%float then "8-15%"
  else if (25 <=? score)%float then "3-8%"
  else if (15 <=? score)%float then "1-3%"
  else "0-1%".

(** The nine bands from worst to best. *)
Definition band_rank (band : MatchBand) : Z :=
  if String.eqb band "Excellent Match" then 8
  else if String.eqb band "Very Good Match" then 7
  else if String.eqb band "Good Match" then 6
  else if String.eqb band "Fair Match" then 5
  else if String.eqb band "Below Average" then 4
  else if String.eqb band "Poor Match" then 3
  else if String.eqb band "Very Poor" then 2
  else if String.eqb band "Inadequate" then 1
  else 0.

(** The probability range that goes with a band. *)
Definition probability_of_band (band : MatchBand) : string :=
  if String.eqb band "Excellent Match" then "70-85%"
  else if String.eqb band "Very Good Match" then "55-70%"
  else if String.eqb band "Good Match" then "40-55%"
  else if String.eqb band "Fair Match" then "25-40%"
  else if String.eqb band "Below Average" then "15-25%"
  else if String.eqb band "Poor Match" then "8-15%"
  else if String.eqb band "Very Poor" then "3-8%"
  else if String.eqb band "Inadequate" then "1-3%"
  else "0-1%".

Definition confidence_rank (c : ConfidenceLevel) : Z :=
  match c with Low => 0 | Medium => 1 | High => 2 end.

Definition band_thresholds : list float := [15; 25; 35; 45; 55; 65; 75; 85]%float.

Definition reached_f (thresholds : list float) (x : float) : Z :=
  Z.of_nat (List.length (List.filter (fun t => (t <=? x)%float) thresholds)).

(** The order on binary64 numbers is transitive. *)
Lemma SFleb_trans (a b c : spec_float) :
  SFleb a b = true -> SFleb b c = true -> SFleb a c = true.
Proof.
  unfold SFleb.
  destruct a as [[]|[]| |[] m1 e1], b as [[]|[]| |[] m2 e2],
    c as [[]|[]| |[] m3 e3]; simpl; try reflexivity; try discriminate;
    change (Pos.compare_cont Eq) with Pos.compare;
    destruct (Z.compare_spec e1 e2), (Z.compare_spec e2 e3),
      (Z.compare_spec e1 e3); subst; simpl; try reflexivity; try discriminate;
      try lia;
    destruct (Pos.compare_spec m1 m2), (Pos.compare_spec m2 m3),
      (Pos.compare_spec m1 m3); subst; simpl; try reflexivity;
      try discriminate; lia.
Qed.

Lemma leb_trans (a b c : float) :
  (a <=? b)%float = true -> (b <=? c)%float = true -> (a <=? c)%float = true.
Proof. rewrite !FloatAxioms.leb_spec. apply SFleb_trans. Qed.

(** A score that reaches a threshold reaches every lower one. *)
Lemma reaches_lower (lo hi x : float) :
  (lo <=? hi)%float = true -> (hi <=? x)%float = true -> (lo <=? x)%float = true.
Proof. apply leb_trans. Qed.

Ltac lower_thresholds x :=
  repeat match goal with
         | H : (?hi <=? x)%float = true |- context [(?lo <=? x)%float] =>
             rewrite (reaches_lower lo hi x eq_refl H)
         end.

(** The band is the number of thresholds the score reaches. *)
Lemma band_rank_reached (score : float) :
  band_rank (getAlignedMatchBand score) = reached_f band_thresholds score.
Proof.
  unfold getAlignedMatchBand, reached_f, band_thresholds. cbn [List.filter].
  destruct (85 <=? score)%float eqn:H85; [lower_thresholds score; reflexivity|].
  destruct (75 <=? score)%float eqn:H75; [lower_thresholds score; reflexivity|].
  destruct (65 <=? score)%float eqn:H65; [lower_thresholds score; reflexivity|].
  destruct (55 <=? score)%float eqn:H55; [lower_thresholds score; reflexivity|].
  destruct (45 <=? score)%float eqn:H45; [lower_thresholds score; reflexivity|].
  destruct (35 <=? score)%float eqn:H35; [lower_thresholds score; reflexivity|].
  destruct (25 <=? score)%float eqn:H25; [lower_thresholds score; reflexivity|].
  destruct (15 <=? score)%float eqn:H15; reflexivity.
Qed.

Lemma reached_f_mono (ts : list float) (x y : float) :
  (x <=? y)%float = true -> reached_f ts x <= reached_f ts y.
Proof.
  intros Hxy. unfold reached_f. induction ts as [|t ts IH]; [reflexivity|].
  cbn [List.filter].
  destruct (t <=? x)%float eqn:E.
  - rewrite (leb_trans t x y E Hxy). cbn [List.length]. lia.
  - destruct (t <=? y)%float; cbn [List.length]; lia.
Qed.

(** X1: a higher score never gets a worse match band. *)
Theorem X1_match_band_monotone (s1 s2 : float) :
  (s1 <=? s2)%float = true ->
  band_rank (getAlignedMatchBand s1) <= band_rank (getAlignedMatchBand s2).
Proof.
  intros H. rewrite !band_rank_reached. now apply reached_f_mono.
Qed.

Lemma X1_witness :
  band_rank (getAlignedMatchBand 44.9) <= band_rank (getAlignedMatchBand 45).
Proof. apply X1_match_band_monotone. reflexivity. Defined.

(** X2: the interview probability always goes with the match band: both
    ladders put every score, NaN included, on the same rung. *)
Theorem X2_probability_follows_band (score : float) :
  getAlignedInterviewProbability score =
  probability_of_band (getAlignedMatchBand score).
Proof.
  unfold getAlignedInterviewProbability, getAlignedMatchBand.
  repeat match goal with
         | |- context [if (?t <=? score)%float then _ else _] =>
             destruct (t <=? score)%float; [reflexivity|]
         end.
  reflexivity.
Qed.

(** The band of a score that is not a number. *)
Example band_of_nan : getAlignedMatchBand nan = "Minimal Match"%string.
Proof. reflexivity. Qed.

(** ** Confidence alignment, below the short circuit *)

Definition quality_points (q : Quality) : Z :=
  match q with
  | excellent => 4 | good => 3 | fair => 2 | poor => 1 | invalid => 0
  end.

Definition score_points (score : float) : Z :=
  reached_f [45; 55; 65; 75]%float score.

(** All four of contact, skills, education and (experience or projects). *)
Definition complete (m : ContentMetrics) : bool :=
  hasContactInfo m && hasSkills m && hasEducation m
  && (hasExperience m || hasProjects m).

Definition confidence_points (score : float) (q : InputQualityAssessment)
  (hasJD : bool) : Z :=
  quality_points (quality q) + score_points score
  + (if hasJD then 1 else 0)
  + (if complete (contentMetrics q) then 1 else 0).

Definition level_of_points (pts : Z) : ConfidenceLevel :=
  if 7 <=? pts then High else if 4 <=? pts then Medium else Low.

Lemma score_ladder (c : Z) (score : float) :
  (if (75 <=? score)%float then c + 4
   else if (65 <=? score)%float then c + 3
   else if (55 <=? score)%float then c + 2
   else if (45 <=? score)%float then c + 1
   else c) = c + score_points score.
Proof.
  unfold score_points, reached_f. cbn [List.filter].
  destruct (75 <=? score)%float eqn:H75;
    [lower_thresholds score; cbn [List.length]; lia|].
  destruct (65 <=? score)%float eqn:H65;
    [lower_thresholds score; cbn [List.length]; lia|].
  destruct (55 <=? score)%float eqn:H55;
    [lower_thresholds score; cbn [List.length]; lia|].
  destruct (45 <=? score)%float eqn:H45; cbn [List.length]; lia.
Qed.

(** The confidence level is [High] from 85 on, and the level of the point
    count below. *)
Lemma calculateAlignedConfidence_points (score : float)
  (q : InputQualityAssessment) (hasJD : bool) :
  calculateAlignedConfidence score q hasJD =
  if (85 <=? score)%float then High
  else level_of_points (confidence_points score q hasJD).
Proof.
  unfold calculateAlignedConfidence.
  destruct (85 <=? score)%float; [reflexivity|].
  rewrite !score_ladder.
  unfold confidence_points, complete, level_of_points.
  generalize (score_points score) as pts. intros pts.
  destruct (quality q), hasJD, (hasContactInfo (contentMetrics q)),
    (hasSkills (contentMetrics q)), (hasEducation (contentMetrics q)),
    (hasExperience (contentMetrics q)), (hasProjects (contentMetrics q));
    simpl;
    repeat match goal with
           | |- context [if ?a <=? ?b then _ else _] =>
               destruct (Z.leb_spec a b)
           end; try reflexivity; exfalso; lia.
Qed.

Lemma score_points_bounds (score : float) : 0 <= score_points score <= 4.
Proof.
  unfold score_points, reached_f.
  pose proof (List.filter_length_le (fun t => (t <=? score)%float)
                [45; 55; 65; 75]%float) as H.
  cbn [List.length] in H. lia.
Qed.

Lemma level_of_points_mono (p1 p2 : Z) :
  p1 <= p2 -> confidence_rank (level_of_points p1) <= confidence_rank (level_of_points p2).
Proof.
  intros H. unfold level_of_points.
  destruct (Z.leb_spec 7 p1), (Z.leb_spec 7 p2), (Z.leb_spec 4 p1),
    (Z.leb_spec 4 p2); simpl; lia.
Qed.

(** X3: for a given assessment and job-description flag, a higher score
    never lowers the confidence level. *)
Theorem X3_confidence_monotone_in_score (s1 s2 : float)
  (q : InputQualityAssessment) (hasJD : bool) :
  (s1 <=? s2)%float = true ->
  confidence_rank (calculateAlignedConfidence s1 q hasJD)
  <= confidence_rank (calculateAlignedConfidence s2 q hasJD).
Proof.
  intros H. rewrite !calculateAlignedConfidence_points.
  destruct (85 <=? s1)%float eqn:E1.
  - now rewrite (leb_trans 85 s1 s2 E1 H).
  - destruct (85 <=? s2)%float.
    + destruct (level_of_points _); simpl; lia.
    + apply level_of_points_mono. unfold confidence_points, score_points.
      pose proof (reached_f_mono [45; 55; 65; 75]%float s1 s2 H). lia.
Qed.

Lemma X3_witness :
  confidence_rank (calculateAlignedConfidence 50 worst_assessment true)
  <= confidence_rank (calculateAlignedConfidence 90 worst_assessment true).
Proof. apply X3_confidence_monotone_in_score. reflexivity. Defined.

(** X4: supplying a job description never lowers the confidence level,
    and neither does a better quality label. *)
Theorem X4_confidence_monotone_in_evidence (score : float)
  (q1 q2 : InputQualityAssessment) (jd1 jd2 : bool) :
  contentMetrics q1 = contentMetrics q2 ->
  quality_points (quality q1) <= quality_points (quality q2) ->
  (jd1 = true -> jd2 = true) ->
  confidence_rank (calculateAlignedConfidence score q1 jd1)
  <= confidence_rank (calculateAlignedConfidence score q2 jd2).
Proof.
  intros Hm Hq Hjd. rewrite !calculateAlignedConfidence_points.
  destruct (85 <=? score)%float; [lia|].
  apply level_of_points_mono. unfold confidence_points. rewrite Hm.
  destruct jd1, jd2; try lia; now specialize (Hjd eq_refl).
Qed.

Lemma X4_witness :
  confidence_rank (calculateAlignedConfidence 70 worst_assessment false)
  <= confidence_rank (calculateAlignedConfidence 70 worst_assessment true).
Proof.
  apply X4_confidence_monotone_in_evidence;
    [reflexivity | simpl; lia | reflexivity].
Defined.

(** X5: below 85 the label bounds the confidence: an [invalid] resume
    never reaches [High], and an [excellent] one is [High] from 65 on and
    never [Low]. *)
Theorem X5_confidence_bounded_by_quality (score : float)
  (q : InputQualityAssessment) (hasJD : bool) :
  (quality q = invalid -> (85 <=? score)%float = false ->
   calculateAlignedConfidence score q hasJD <> High)
  /\ (quality q = excellent -> (65 <=? score)%float = true ->
      calculateAlignedConfidence score q hasJD = High)
  /\ (quality q = excellent ->
      calculateAlignedConfidence score q hasJD <> Low).
Proof.
  rewrite calculateAlignedConfidence_points.
  pose proof (score_points_bounds score) as Hs.
  unfold confidence_points, level_of_points.
  repeat split.
  - intros Hq H85. rewrite H85, Hq. simpl quality_points.
    destruct hasJD, (complete (contentMetrics q));
      destruct (Z.leb_spec 7 (0 + score_points score + 1 + 1)),
        (Z.leb_spec 7 (0 + score_points score + 1 + 0)),
        (Z.leb_spec 7 (0 + score_points score + 0 + 1)),
        (Z.leb_spec 7 (0 + score_points score + 0 + 0)); try lia;
      destruct (_ <=? _); discriminate.
  - intros Hq H65. rewrite Hq. simpl quality_points.
    destruct (85 <=? score)%float; [reflexivity|].
    assert (3 <= score_points score).
    { unfold score_points, reached_f. cbn [List.filter].
      rewrite H65, (reaches_lower 55 65 score eq_refl H65),
        (reaches_lower 45 65 score eq_refl H65).
      destruct (75 <=? score)%float; cbn [List.length]; lia. }
    destruct (Z.leb_spec 7
      (4 + score_points score + (if hasJD then 1 else 0)
       + (if complete (contentMetrics q) then 1 else 0))); [reflexivity|].
    destruct hasJD, (complete (contentMetrics q)); lia.
  - intros Hq. rewrite Hq. simpl quality_points.
    destruct (85 <=? score)%float; [discriminate|].
    destruct (Z.leb_spec 7
      (4 + score_points score + (if hasJD then 1 else 0)
       + (if complete (contentMetrics q) then 1 else 0))); [discriminate|].
    destruct (Z.leb_spec 4
      (4 + score_points score + (if hasJD then 1 else 0)
       + (if complete (contentMetrics q) then 1 else 0))); [discriminate|].
    destruct hasJD, (complete (contentMetrics q)); lia.
Qed.

Lemma X5_witness :
  calculateAlignedConfidence 84 worst_assessment true <> High.
Proof.
  apply (proj1 (X5_confidence_bounded_by_quality 84 worst_assessment true));
    reflexivity.
Defined.

(** X6: the top match band and the top confidence level start at the same
    score: whenever the band is "Excellent Match" the confidence is [High]. *)
Theorem X6_excellent_band_is_high_confidence (score : float)
  (q : InputQualityAssessment) (hasJD : bool) :
  getAlignedMatchBand score = "Excellent Match"%string ->
  calculateAlignedConfidence score q hasJD = High.
Proof.
  unfold getAlignedMatchBand, calculateAlignedConfidence. intros H.
  destruct (85 <=? score)%float; [reflexivity|].
  repeat match type of H with
         | (if ?b then _ else _) = _ => destruct b; [discriminate|]
         end.
  discriminate.
Qed.

Lemma X6_witness :
  calculateAlignedConfidence 85 worst_assessment false = High.
Proof. apply X6_excellent_band_is_high_confidence. reflexivity. Defined.

(** ** The issue list of the assessment *)

Definition issue_if (cond : bool) (message : string) : list string :=
  if cond then [message] else [].

(** The advisory messages, in the order the code appends them. *)
Definition issue_list (m : ContentMetrics) : list string :=
  issue_if (wordCount m <? 50) "Resume text too short (< 50 words)"
  ++ issue_if (wordCount m <? 100) "Resume appears incomplete"
  ++ issue_if (negb (hasContactInfo m)) "Missing contact information"
  ++ issue_if (negb (hasSkills m) && negb (hasExperience m)
               && negb (hasProjects m)) "No substantive content detected"
  ++ issue_if (sectionCount m <? 2) "Missing standard resume sections".

Lemma issue_if_nil (cond : bool) (message : string) :
  issue_if cond message = [] <-> cond = false.
Proof. destruct cond; simpl; split; congruence. Qed.

Lemma issues_of_result (toLowerCase : jsstring -> jsstring)
  (input : NormalModeInput) (a : InputQualityAssessment) :
  a = assessInputQuality toLowerCase input ->
  issues a = issue_list (contentMetrics a).
Proof.
  cbv beta delta [assessInputQuality]. name_lets.
  repeat match goal with
         | x := _ : Z |- _ => clearbody x
         | x := _ : bool |- _ => clearbody x
         end.
  split_label; intros ->; cbn [issues contentMetrics];
    subst issues5 issues4 issues3 issues2 issues1 issues0 contentMetrics0;
    unfold issue_list, issue_if;
    cbn [wordCount sectionCount hasContactInfo hasSkills hasExperience
         hasProjects];
    destruct (wordCount0 <? 50), (wordCount0 <? 100), (negb hasContactInfo0),
      (negb hasSkills0 && negb hasExperience0 && negb hasProjects0),
      (sectionCount0 <? 2); reflexivity.
Qed.

(** X7: the assessment raises no issue exactly when the text has at least
    100 words, contact information, some substantive section and at least
    two section headers; such a resume scores at least 30 and is never
    [invalid]. *)
Theorem X7_no_issue_means_valid (toLowerCase : jsstring -> jsstring)
  (input : NormalModeInput) :
  let a := assessInputQuality toLowerCase input in
  let m := contentMetrics a in
  (issues a = [] <->
   100 <= wordCount m /\ hasContactInfo m = true
   /\ (hasSkills m = true \/ hasExperience m = true \/ hasProjects m = true)
   /\ 2 <= sectionCount m)
  /\ (issues a = [] ->
      30 <= qualityScore a /\ isValid a = true /\ quality a <> invalid).
Proof.
  cbv zeta.
  pose proof (issues_of_result toLowerCase input _ eq_refl) as Hi.
  pose proof (qualityScore_assess toLowerCase input) as HQ. cbv zeta in HQ.
  destruct (quality_assess toLowerCase input) as [HL HV].
  set (a := assessInputQuality toLowerCase input) in *.
  set (m := contentMetrics a) in *.
  assert (Hiff : issues a = [] <->
    100 <= wordCount m /\ hasContactInfo m = true
    /\ (hasSkills m = true \/ hasExperience m = true \/ hasProjects m = true)
    /\ 2 <= sectionCount m).
  { rewrite Hi. unfold issue_list.
    rewrite !app_nil, !issue_if_nil, !Z.ltb_ge, !andb_false_iff,
      !negb_false_iff.
    intuition lia. }
  split; [exact Hiff|].
  intros Hnone. apply Hiff in Hnone as (Hw & Hc & Hs & Hn).
  assert (Hscore : 30 <= qualityScore a).
  { rewrite HQ.
    assert (10 <= word_count_bucket m).
    { unfold word_count_bucket, reached. cbn [List.filter].
      destruct (Z.leb_spec 50 (wordCount m)), (Z.leb_spec 100 (wordCount m));
        try lia.
      destruct (200 <=? wordCount m), (400 <=? wordCount m);
        cbn [List.length]; lia. }
    assert (10 <= section_presence_bucket m).
    { unfold section_presence_bucket, points. rewrite Hc.
      destruct Hs as [-> | [-> | ->]];
        destruct (hasSkills m), (hasEducation m), (hasExperience m),
          (hasProjects m); lia. }
    assert (10 <= section_count_bucket m).
    { unfold section_count_bucket, reached. cbn [List.filter].
      destruct (Z.leb_spec 1 (sectionCount m)), (Z.leb_spec 2 (sectionCount m));
        try lia.
      destruct (3 <=? sectionCount m), (5 <=? sectionCount m);
        cbn [List.length]; lia. }
    assert (0 <= content_depth_bucket m).
    { unfold content_depth_bucket.
      pose proof (reached_bounds [2; 5; 10] (bulletCount m)).
      pose proof (reached_bounds [2; 5; 10] (uniqueSkillCount m)). lia. }
    lia. }
  split; [exact Hscore|].
  rewrite HV, HL. unfold label_of.
  destruct (Z.ltb_spec (qualityScore a) 20); [lia|].
  split; [reflexivity|].
  destruct (80 <=? qualityScore a), (60 <=? qualityScore a),
    (40 <=? qualityScore a); try discriminate.
  destruct (Z.leb_spec 20 (qualityScore a)); [discriminate | lia].
Qed.

Lemma X7_witness :
  30 <= qualityScore (assessInputQuality ascii_toLowerCase strong_input)
  /\ isValid (assessInputQuality ascii_toLowerCase strong_input) = true
  /\ quality (assessInputQuality ascii_toLowerCase strong_input) <> invalid.
Proof.
  apply (proj2 (X7_no_issue_means_valid ascii_toLowerCase strong_input)).
  apply (proj1 (X7_no_issue_means_valid ascii_toLowerCase strong_input)).
  rewrite strong_input_metrics. simpl. repeat split; auto; lia.
Defined.

(** X8: a text of fewer than 50 words is reported both as too short and as
    incomplete, in that order and before any other issue; and no assessment
    carries more than five issues. *)
Theorem X8_short_text_issues (toLowerCase : jsstring -> jsstring)
  (input : NormalModeInput) :
  let a := assessInputQuality toLowerCase input in
  (wordCount (contentMetrics a) < 50 ->
   exists others,
     issues a = "Resume text too short (< 50 words)"%string
                :: "Resume appears incomplete"%string :: others)
  /\ (List.length (issues a) <= 5)%nat.
Proof.
  cbv zeta.
  rewrite (issues_of_result toLowerCase input _ eq_refl).
  set (m := contentMetrics (assessInputQuality toLowerCase input)).
  unfold issue_list, issue_if. split.
  - intros H.
    destruct (Z.ltb_spec (wordCount m) 50); [|lia].
    destruct (Z.ltb_spec (wordCount m) 100); [|lia].
    eexists. reflexivity.
  - destruct (wordCount m <? 50), (wordCount m <? 100),
      (negb (hasContactInfo m)),
      (negb (hasSkills m) && negb (hasExperience m) && negb (hasProjects m)),
      (sectionCount m <? 2); simpl; lia.
Qed.

Lemma X8_witness :
  exists others,
    issues (assessInputQuality ascii_toLowerCase
              {| resumeText := lit "hello world"; resumeData := None;
                 userType := None |})
    = "Resume text too short (< 50 words)"%string
      :: "Resume appears incomplete"%string :: others.
Proof.
  apply (proj1 (X8_short_text_issues ascii_toLowerCase
    {| resumeText := lit "hello world"; resumeData := None;
       userType := None |})).
  rewrite contentMetrics_assess. vm_compute. reflexivity.
Defined.

(** ** Applying weights twice, and the experience tier of a fresher *)

(** Which keys the table has does not depend on the level. *)
Lemma own_weight_none (w1 w2 : NormalizedWeights) (key : string) :
  own_weight w1 key = None -> own_weight w2 key = None.
Proof.
  unfold own_weight.
  repeat match goal with
         | |- context [if String.eqb key ?s then _ else _] =>
             destruct (String.eqb key s); [discriminate|]
         end.
  reflexivity.
Qed.

Lemma weight_of_key_none (w1 w2 : NormalizedWeights) (key : string) :
  weight_of_key w1 key = None -> weight_of_key w2 key = None.
Proof.
  unfold weight_of_key.
  destruct (own_weight w1 key) eqn:E1; [discriminate|].
  rewrite (own_weight_none w1 w2 key E1).
  now destruct (inherited_property key).
Qed.

Lemma reweigh_reweigh {R : Type} (w1 w2 : NormalizedWeights) (key : string)
  (tier : TierScore R) :
  reweigh w2 key (reweigh w1 key tier) = reweigh w2 key tier.
Proof.
  unfold reweigh. cbn [percentage weight tier_rest].
  destruct (weight_of_key w2 key) eqn:E2; [reflexivity|].
  now rewrite (weight_of_key_none w2 w1 key E2).
Qed.

(** X9: re-weighting for a level overrides any earlier re-weighting: the
    result is what that level gives on the original scores; in particular
    applying the same level twice changes nothing more. *)
Theorem X9_apply_weights_last_level_wins {R : Type}
  (tierScores : gmap string (TierScore R)) (l1 l2 : CandidateLevel) :
  applyNormalizedWeights (applyNormalizedWeights tierScores l1) l2
  = applyNormalizedWeights tierScores l2.
Proof.
  apply map_eq. intros key.
  rewrite !applyNormalizedWeights_lookup.
  destruct (String.eqb key "__proto__"); [reflexivity|].
  destruct (tierScores !! key) as [tier|]; [|reflexivity].
  cbn [fmap option_fmap option_map]. now rewrite reweigh_reweigh.
Qed.

Lemma is_finite_spec (x : float) :
  PrimFloat.is_finite x = true ->
  (exists s, Prim2SF x = S754_zero s)
  \/ (exists s m e, Prim2SF x = S754_finite s m e).
Proof.
  unfold PrimFloat.is_finite, is_infinity.
  rewrite negb_true_iff, orb_false_iff, FloatAxioms.eqb_spec,
    FloatAxioms.abs_spec.
  intros [Hn Hi]. apply is_nan_false_iff in Hn.
  destruct (Prim2SF x) as [s|s| |s m e]; eauto; try congruence.
  destruct s; discriminate.
Qed.

Lemma zero_weight_contribution (p : float) :
  PrimFloat.is_finite p = true -> (p * 0 / 100 =? 0)%float = true.
Proof.
  intros Hp. rewrite FloatAxioms.eqb_spec, FloatAxioms.div_spec,
    FloatAxioms.mul_spec.
  destruct (is_finite_spec p Hp) as [[s ->] | (s & m & e & ->)];
    destruct s; reflexivity.
Qed.

(** X10: for a fresher the experience tier weighs 0 and contributes
    nothing to the total, whatever its (finite) percentage is. *)
Theorem X10_fresher_experience_counts_for_nothing {R : Type}
  (tierScores : gmap string (TierScore R)) (tier : TierScore R) :
  tierScores !! "experience"%string = Some tier ->
  PrimFloat.is_finite (percentage tier) = true ->
  exists tier',
    applyNormalizedWeights tierScores "fresher" !! "experience"%string
      = Some tier'
    /\ weight tier' = Num 0
    /\ (weighted_contribution tier' =? 0)%float = true.
Proof.
  intros Hk Hp. rewrite applyNormalizedWeights_lookup, Hk.
  cbn [String.eqb Ascii.eqb Bool.eqb].
  eexists. split; [reflexivity|]. split; [reflexivity|].
  cbn. now apply zero_weight_contribution.
Qed.

Lemma X10_witness :
  exists tier',
    applyNormalizedWeights
      ({[ "experience"%string :=
            {| percentage := 12.5; weight := Num 25;
               weighted_contribution := 3.125; tier_rest := tt |} ]}
       : gmap string (TierScore unit))
      "fresher" !! "experience"%string = Some tier'
    /\ weight tier' = Num 0
    /\ (weighted_contribution tier' =? 0)%float = true.
Proof.
  eapply X10_fresher_experience_counts_for_nothing; reflexivity.
Defined.

(** ** Search configurations: defaults and validation *)

(** What [configs[key] || fallback] can evaluate to: a configuration, or a
    member that every object literal inherits from [Object.prototype] (a
    function, or the prototype itself for [__proto__]; all of them truthy). *)
Inductive DefaultLookup :=
| Config (c : ApifySearchConfig)
| PrototypeMember (name : jsstring).

Definition object_prototype_names : list jsstring :=
  List.map lit
    ["constructor"; "__defineGetter__"; "__defineSetter__"; "hasOwnProperty";
     "__lookupGetter__"; "__lookupSetter__"; "isPrototypeOf";
     "propertyIsEnumerable"; "toString"; "valueOf"; "__proto__";
     "toLocaleString"]%string.

Definition is_key (key : jsstring) (name : string) : bool :=
  if jsstring_eq_dec key (lit name) then true else false.

Definition inherited (key : jsstring) : bool :=
  List.existsb (fun name => if jsstring_eq_dec key name then true else false)
               object_prototype_names.

Section Defaults.

Variable toLowerCase : jsstring -> jsstring.

Definition generateDefaultSearchConfig (platform : jsstring) : DefaultLookup :=
  let key := toLowerCase platform in
  if is_key key "linkedin" then
    Config {| keywords := Some ["software engineer"; "developer"]%string;
              location := Some "India"%string;
              jobType := Some "Full-time"%string;
              experienceLevel := Some "Entry level"%string;
              maxResults := Some 50%float |}
  else if is_key key "indeed" then
    Config {| keywords := Some ["software developer"]%string;
              location := Some "Remote"%string;
              jobType := Some "Full-time"%string;
              experienceLevel := None;
              maxResults := Some 50%float |}
  else if is_key key "naukri" then
    Config {| keywords := Some ["software engineer"]%string;
              location := Some "Bangalore"%string;
              jobType := None;
              experienceLevel := Some "0-3 years"%string;
              maxResults := Some 50%float |}
  else if is_key key "instahyre" then
    Config {| keywords := Some ["backend developer"; "frontend developer"]%string;
              location := Some "India"%string;
              jobType := None;
              experienceLevel := None;
              maxResults := Some 50%float |}
  else if inherited key then PrototypeMember key
  else
    Config {| keywords := Some ["software"]%string;
              location := Some "India"%string;
              jobType := None;
              experienceLevel := None;
              maxResults := Some 50%float |}.

End Defaults.

(** The fields a validator reads off a lookup result: a prototype member
    has neither [keywords] nor [maxResults]. *)
Definition as_config (r : DefaultLookup) : ApifySearchConfig :=
  match r with
  | Config c => c
  | PrototypeMember _ =>
      {| keywords := None; location := None; jobType := None;
         experienceLevel := None; maxResults := None |}
  end.

Definition has_keyword (config : ApifySearchConfig) : Prop :=
  exists k ks, keywords config = Some (k :: ks).

(** [maxResults] is absent, falsy (0, -0, NaN) or within [1,1000]. *)
Definition max_results_passes (config : ApifySearchConfig) : Prop :=
  match maxResults config with
  | None => True
  | Some m =>
      truthy (Some m) = false
      \/ ((m <? 1)%float = false /\ (1000 <? m)%float = false)
  end.

(** X11: the validator accepts a configuration exactly when it has a
    keyword and its [maxResults] is absent, falsy or within [1,1000];
    [valid] holds exactly when no error is listed, and a configuration that
    breaks both rules gets both messages, the keyword one first. *)
Theorem X11_validate_search_config (config : ApifySearchConfig) :
  let v := validateSearchConfig config in
  (valid v = true <-> errors v = [])
  /\ (valid v = true <-> has_keyword config /\ max_results_passes config)
  /\ (~ has_keyword config -> ~ max_results_passes config ->
      errors v = ["At least one keyword is required";
                  "Max results must be between 1 and 1000"]%string).
Proof.
  cbv zeta. unfold validateSearchConfig, has_keyword, max_results_passes.
  destruct (keywords config) as [[|k ks]|];
    destruct (maxResults config) as [m|];
    try destruct (truthy (Some m)); try destruct (m <? 1)%float;
    try destruct (1000 <? m)%float; simpl;
    (split; [split; congruence|]);
    (split; [split; [try discriminate; intros _; split; eauto; tauto
                    | intros [(k' & ks' & E) H]; try discriminate;
                      try reflexivity;
                      destruct H as [H | [H1 H2]]; discriminate]
            |]);
    intros H1 H2; try reflexivity;
    try (exfalso; apply H1; eauto; fail);
    exfalso; apply H2; tauto.
Qed.

Lemma X11_witness :
  errors (validateSearchConfig
            {| keywords := Some []; location := None; jobType := None;
               experienceLevel := None; maxResults := Some 5000%float |})
  = ["At least one keyword is required";
     "Max results must be between 1 and 1000"]%string.
Proof.
  apply (X11_validate_search_config
           {| keywords := Some []; location := None; jobType := None;
              experienceLevel := None; maxResults := Some 5000%float |}).
  - intros (k & ks & E). discriminate.
  - intros [H | [H1 H2]]; discriminate.
Defined.

(** X12: whatever the platform name, the default search configuration is
    one the validator accepts, asking for 50 results, unless the lowercased
    name is a property every object inherits ("constructor", "__proto__",
    ...): then the lookup returns that member instead of a configuration,
    and validation rejects it for want of keywords. *)
Theorem X12_default_config_is_valid (toLowerCase : jsstring -> jsstring)
  (platform : jsstring) :
  let r := generateDefaultSearchConfig toLowerCase platform in
  (inherited (toLowerCase platform) = false ->
   exists c, r = Config c
             /\ validateSearchConfig c = {| valid := true; errors := [] |}
             /\ maxResults c = Some 50%float)
  /\ (inherited (toLowerCase platform) = true ->
      r = PrototypeMember (toLowerCase platform)
      /\ validateSearchConfig (as_config r) =
         {| valid := false;
            errors := ["At least one keyword is required"%string] |}).
Proof.
  cbv zeta. unfold generateDefaultSearchConfig, is_key.
  split; intros Hi.
  - repeat match goal with
           | |- context [if jsstring_eq_dec ?a ?b then _ else _] =>
               destruct (jsstring_eq_dec a b);
               [eexists; repeat split; reflexivity|]
           end.
    rewrite Hi. eexists; repeat split; reflexivity.
  - repeat match goal with
           | |- context [if jsstring_eq_dec ?a ?b then _ else _] =>
               destruct (jsstring_eq_dec a b) as [E|];
               [rewrite E in Hi; vm_compute in Hi; discriminate|]
           end.
    rewrite Hi. split; reflexivity.
Qed.

Lemma X12_witness :
  (exists c, generateDefaultSearchConfig ascii_toLowerCase (lit "LinkedIn") = Config c
             /\ validateSearchConfig c = {| valid := true; errors := [] |}
             /\ maxResults c = Some 50%float)
  /\ generateDefaultSearchConfig ascii_toLowerCase (lit "Constructor")
     = PrototypeMember (lit "constructor").
Proof.
  split.
  - apply (X12_default_config_is_valid ascii_toLowerCase (lit "LinkedIn")).
    reflexivity.
  - apply (X12_default_config_is_valid ascii_toLowerCase (lit "Constructor")).
    reflexivity.
Defined.

(** ** Sync statistics: invariants *)

Lemma count_status_nonneg (s : string) (rows : list JobSyncLog) :
  0 <= count_status s rows.
Proof. unfold count_status. lia. Qed.

Lemma success_failed_disjoint (rows : list JobSyncLog) :
  count_status "success" rows + count_status "failed" rows
  <= Z.of_nat (List.length rows).
Proof.
  unfold count_status. induction rows as [|l rows IH]; [simpl; lia|].
  cbn [List.filter].
  destruct (String.eqb_spec (status l) "success") as [E|];
    destruct (String.eqb_spec (status l) "failed") as [E'|];
    cbn [List.length]; try lia.
  rewrite E in E'. discriminate.
Qed.

(** X13: whenever the store answers, the statistics are consistent: the
    successful and the failed syncs are counted apart and together never
    exceed the total; a table without rows, or a null answer, gives zeros
    and no date. *)
Theorem X13_sync_stats_consistent (supabase : Remote)
  (rows : option (list JobSyncLog)) :
  select_sync_logs supabase = Returned {| data := rows; error := None |} ->
  exists stats,
    getSyncStats supabase = Returned stats
    /\ 0 <= successfulSyncs stats /\ 0 <= failedSyncs stats
    /\ successfulSyncs stats + failedSyncs stats <= totalSyncs stats
    /\ ((rows = None \/ rows = Some []) ->
        stats = {| totalSyncs := 0; successfulSyncs := 0; failedSyncs := 0;
                   totalJobsFetched := 0; totalJobsCreated := 0;
                   lastSyncDate := None |}).
Proof.
  intros H. unfold getSyncStats. rewrite H. cbn [bind error data].
  eexists. split; [reflexivity|].
  destruct rows as [rows|]; cbn [successfulSyncs failedSyncs totalSyncs].
  - repeat split; try apply count_status_nonneg.
    + apply success_failed_disjoint.
    + intros [E | E]; [discriminate|]. injection E as ->. reflexivity.
  - repeat split; try lia.
Qed.

Lemma X13_witness :
  exists stats,
    getSyncStats (store_with_logs two_syncs) = Returned stats
    /\ 0 <= successfulSyncs stats /\ 0 <= failedSyncs stats
    /\ successfulSyncs stats + failedSyncs stats <= totalSyncs stats.
Proof.
  destruct (X13_sync_stats_consistent (store_with_logs two_syncs)
              (Some two_syncs) eq_refl) as (stats & H & H1 & H2 & H3 & _).
  exists stats. auto.
Defined.

Lemma count_status_perm (s : string) (rows rows' : list JobSyncLog) :
  Permutation rows rows' -> count_status s rows = count_status s rows'.
Proof.
  intros H. unfold count_status.
  induction H as [|l rows rows' _ IH|l l' rows|rows1 rows2 rows3 _ IH1 _ IH2].
  - reflexivity.
  - cbn [List.filter]. destruct (String.eqb (status l) s);
      cbn [List.length]; lia.
  - cbn [List.filter].
    destruct (String.eqb (status l) s), (String.eqb (status l') s);
      reflexivity.
  - lia.
Qed.

(** Three rows whose fetched counts are 2^53, 1 and 1. *)
Definition sync_row (fetched : float) : JobSyncLog :=
  {| config_id := "cfg-1"; status := "success"; jobs_fetched := Some fetched;
     jobs_created := None; created_at := "2024-01-01T00:00:00+00:00" |}.

Definition large_then_small : list JobSyncLog :=
  [sync_row 9007199254740992; sync_row 1; sync_row 1].

(** X14: the three counts do not depend on the order in which the store
    returns the rows; the two totals are binary64 sums taken in row order
    and do depend on it: with fetched counts 2^53, 1, 1 the total is 2^53
    in that order and 2^53 + 2 in the reverse one. *)
Theorem X14_sync_counts_order_independent :
  (forall rows rows' : list JobSyncLog,
     Permutation rows rows' ->
     exists stats stats',
       getSyncStats (store_with_logs rows) = Returned stats
       /\ getSyncStats (store_with_logs rows') = Returned stats'
       /\ totalSyncs stats = totalSyncs stats'
       /\ successfulSyncs stats = successfulSyncs stats'
       /\ failedSyncs stats = failedSyncs stats')
  /\ (exists stats stats',
        Permutation large_then_small (List.rev large_then_small)
        /\ getSyncStats (store_with_logs large_then_small) = Returned stats
        /\ getSyncStats (store_with_logs (List.rev large_then_small))
           = Returned stats'
        /\ totalJobsFetched stats = 9007199254740992%float
        /\ totalJobsFetched stats' = 9007199254740994%float).
Proof.
  split.
  - intros rows rows' H. do 2 eexists.
    split; [reflexivity|]. split; [reflexivity|].
    cbn [data totalSyncs successfulSyncs failedSyncs].
    rewrite (Permutation_length H), (count_status_perm "success" _ _ H),
      (count_status_perm "failed" _ _ H).
    repeat split.
  - do 2 eexists. split; [apply Permutation_rev|].
    repeat split; reflexivity.
Qed.

Lemma X14_witness :
  exists stats stats',
    getSyncStats (store_with_logs two_syncs) = Returned stats
    /\ getSyncStats (store_with_logs (List.rev two_syncs)) = Returned stats'
    /\ totalSyncs stats = totalSyncs stats'
    /\ successfulSyncs stats = successfulSyncs stats'
    /\ failedSyncs stats = failedSyncs stats'.
Proof.
  apply (proj1 X14_sync_counts_order_independent). apply Permutation_rev.
Defined.

(** ** The sync trigger: what it never consults *)

(** X15: the remote function decides nothing unless the configuration is
    found and active: two back ends that answer the configuration query
    alike, for a configuration that is missing, inactive or unreadable,
    give the same result whatever their function runners do. *)
Theorem X15_trigger_ignores_runner_when_blocked (s1 s2 : Remote)
  (configId : string) :
  select_config_by_id s1 configId = select_config_by_id s2 configId ->
  (forall c, getConfigById s1 configId = Returned (Some c) ->
             is_active c = false) ->
  triggerManualSync s1 configId = triggerManualSync s2 configId
  /\ exists msg, triggerManualSync s1 configId = Returned (failed msg).
Proof.
  intros Hsel Hblocked.
  assert (Hcfg : getConfigById s2 configId = getConfigById s1 configId)
    by (unfold getConfigById; now rewrite Hsel).
  unfold triggerManualSync. rewrite Hcfg.
  destruct (getConfigById s1 configId) as [[c|]|e]; cbn [bind try_catch].
  - rewrite (Hblocked c eq_refl). cbn. split; [reflexivity | eauto].
  - split; [reflexivity | eauto].
  - split; [reflexivity | eauto].
Qed.

Lemma X15_witness :
  triggerManualSync inactive_store "cfg-1"
  = triggerManualSync
      {| select_config_by_id := select_config_by_id inactive_store;
         select_sync_logs := select_sync_logs inactive_store;
         functions_invoke := fun _ _ =>
           Returned {| data := Some "ok"%string; error := None |};
         fetch := fetch inactive_store |} "cfg-1".
Proof.
  apply X15_trigger_ignores_runner_when_blocked; [reflexivity|].
  intros c [= <-]. reflexivity.
Defined.

(* ===================================================================== *)
(** * What the patterns match *)
(* ===================================================================== *)

(** The matches of a pattern between two positions of the input, stated
    without reference to the search order of the matcher. *)
Inductive matches : regex -> pos -> pos -> Prop :=
| m_eps p : matches Eps p p
| m_chr f prev c rest :
    f c = true -> matches (Chr f) (prev, c :: rest) (Some c, rest)
| m_cat r1 r2 p q s :
    matches r1 p q -> matches r2 q s -> matches (Cat r1 r2) p s
| m_alt_l r1 r2 p q : matches r1 p q -> matches (Alt r1 r2) p q
| m_alt_r r1 r2 p q : matches r2 p q -> matches (Alt r1 r2) p q
| m_star_stop r p : matches (Star r) p p
| m_star_step r p q s :
    matches r p q -> (remaining q < remaining p)%nat ->
    matches (Star r) q s -> matches (Star r) p s
| m_wordb p :
    xorb (word_before p) (word_after p) = true -> matches WordB p p
| m_line_first rest : matches LineStart (None, rest) (None, rest)
| m_line_next c rest :
    is_line_terminator c = true ->
    matches LineStart (Some c, rest) (Some c, rest).

(** The loop the matcher runs for [Star]. *)
Definition star_loop (rm : (pos -> option pos) -> pos -> option pos)
  (k : pos -> option pos) : nat -> pos -> option pos :=
  fix loop (fuel : nat) (p : pos) {struct fuel} : option pos :=
    match fuel with
    | O => k p
    | S fuel' =>
        match rm (fun q => if (remaining q <? remaining p)%nat
                           then loop fuel' q else None) p with
        | Some q => Some q
        | None => k p
        end
    end.

Lemma rmatch_star (r : regex) (k : pos -> option pos) (p : pos) :
  rmatch (Star r) k p = star_loop (rmatch r) k (remaining p) p.
Proof. reflexivity. Qed.

Section MatcherSound.

Lemma star_loop_sound (r : regex) (k : pos -> option pos) :
  (forall k' p x, rmatch r k' p = Some x ->
     exists q, matches r p q /\ k' q = Some x) ->
  forall fuel p x, star_loop (rmatch r) k fuel p = Some x ->
    exists q, matches (Star r) p q /\ k q = Some x.
Proof.
  intros IHr. induction fuel as [|fuel IH]; intros p x H; simpl in H.
  - exists p. split; [constructor | exact H].
  - destruct (rmatch r _ p) as [y|] eqn:E.
    + injection H as <-. apply IHr in E as (q & Hq & Hk).
      destruct (remaining q <? remaining p)%nat eqn:Hlt; [|discriminate].
      apply IH in Hk as (s & Hs & Hks).
      exists s. split; [|exact Hks].
      eapply m_star_step; eauto. now apply Nat.ltb_lt.
    + exists p. split; [constructor | exact H].
Qed.

(** Whatever the matcher returns comes from a match. *)
Lemma rmatch_sound (r : regex) :
  forall k p x, rmatch r k p = Some x ->
    exists q, matches r p q /\ k q = Some x.
Proof.
  induction r as [|f|r1 IH1 r2 IH2|r1 IH1 r2 IH2|r IH| |]; intros k p x H.
  - exists p. split; [constructor | exact H].
  - simpl in H. destruct p as [prev [|c rest]]; [discriminate|].
    simpl in H. destruct (f c) eqn:E; [|discriminate].
    exists (Some c, rest). split; [now constructor | exact H].
  - simpl in H. apply IH1 in H as (q & Hq & H).
    apply IH2 in H as (s & Hs & H).
    exists s. split; [econstructor; eauto | exact H].
  - simpl in H. destruct (rmatch r1 k p) as [y|] eqn:E.
    + injection H as <-. apply IH1 in E as (q & Hq & Hk).
      exists q. split; [now apply m_alt_l | exact Hk].
    + apply IH2 in H as (q & Hq & Hk).
      exists q. split; [now apply m_alt_r | exact Hk].
  - rewrite rmatch_star in H. eapply star_loop_sound; eauto.
  - simpl in H. destruct (xorb _ _) eqn:E; [|discriminate].
    exists p. split; [now constructor | exact H].
  - simpl in H. destruct p as [[c|] rest]; simpl in H.
    + destruct (is_line_terminator c) eqn:E; [|discriminate].
      exists (Some c, rest). split; [now constructor | exact H].
    + exists (None, rest). split; [constructor | exact H].
Qed.

Lemma star_loop_complete (r : regex) (k : pos -> option pos) :
  (forall k' p q, matches r p q -> k' q <> None -> rmatch r k' p <> None) ->
  forall p q, matches (Star r) p q -> k q <> None ->
  forall fuel, (remaining p <= fuel)%nat ->
    star_loop (rmatch r) k fuel p <> None.
Proof.
  intros IHr p q H. remember (Star r) as sr eqn:Esr.
  induction H as [| | | | |r' p|r' p q s Hpq _ Hlt Hqs IH| | |];
    try discriminate; injection Esr as ->; intros Hk fuel Hfuel.
  - destruct fuel as [|fuel]; simpl; [exact Hk|].
    destruct (rmatch r _ p); [discriminate | exact Hk].
  - destruct fuel as [|fuel]; [lia|]. simpl.
    assert (Hin : rmatch r
              (fun q' => if (remaining q' <? remaining p)%nat
                         then star_loop (rmatch r) k fuel q' else None) p
            <> None).
    { apply (IHr _ p q Hpq).
      apply Nat.ltb_lt in Hlt as Hlt'. rewrite Hlt'.
      apply IH; [reflexivity | exact Hk | lia]. }
    destruct (rmatch r _ p); [discriminate | contradiction].
Qed.

(** Every match is found, in some order. *)
Lemma rmatch_complete (r : regex) :
  forall k p q, matches r p q -> k q <> None -> rmatch r k p <> None.
Proof.
  induction r as [|f|r1 IH1 r2 IH2|r1 IH1 r2 IH2|r IH| |]; intros k p q H Hk.
  - inversion H; subst. exact Hk.
  - inversion H; subst. simpl.
    match goal with E : f _ = true |- _ => rewrite E end. exact Hk.
  - inversion H; subst. simpl. eapply IH1; eauto.
  - inversion H; subst; simpl.
    + destruct (rmatch r1 k p) eqn:E; [discriminate|].
      exfalso. eapply IH1; eauto.
    + destruct (rmatch r1 k p); [discriminate|]. eapply IH2; eauto.
  - rewrite rmatch_star. eapply star_loop_complete; eauto.
  - inversion H; subst. simpl.
    match goal with E : xorb _ _ = true |- _ => rewrite E end. exact Hk.
  - inversion H; subst; simpl; [exact Hk|].
    match goal with E : is_line_terminator _ = true |- _ => rewrite E end.
    exact Hk.
Qed.

End MatcherSound.

(** The matcher finds a match at a position exactly when there is one. *)
Lemma match_at_iff (r : regex) (p : pos) :
  match_at r p <> None <-> exists q, matches r p q.
Proof.
  unfold match_at. split.
  - destruct (rmatch r Some p) as [x|] eqn:E; [|congruence].
    intros _. apply rmatch_sound in E as (q & Hq & _). eauto.
  - intros [q Hq]. eapply rmatch_complete; eauto.
Qed.

(** The code unit before the position reached after [pre]. *)
Definition advance (prev : option N) (pre : jsstring) : option N :=
  match last pre with
  | Some c => Some c
  | None => prev
  end.

Lemma advance_cons (prev : option N) (c : N) (pre : jsstring) :
  advance prev (c :: pre) = advance (Some c) pre.
Proof.
  unfold advance. rewrite last_cons. now destruct (last pre).
Qed.

Lemma advance_nil (prev : option N) : advance prev [] = prev.
Proof. reflexivity. Qed.

Lemma search_iff (r : regex) (fuel : nat) :
  forall prev s,
    search r (prev, s) fuel <> None <->
    exists pre post, s = pre ++ post /\ (List.length pre <= fuel)%nat
                     /\ match_at r (advance prev pre, post) <> None.
Proof.
  unfold jsstring.
  induction fuel as [|fuel IH]; intros prev s; cbn [search snd].
  - destruct (match_at r (prev, s)) eqn:E.
    + split; [|discriminate]. intros _. exists [], s.
      rewrite advance_nil, E. repeat split; [simpl; lia | discriminate].
    + split; [intros H; now contradiction H|].
      intros (pre & post & -> & Hlen & Hm).
      destruct pre; [|simpl in Hlen; lia].
      rewrite advance_nil in Hm. cbn [app] in E. now rewrite E in Hm.
  - destruct (match_at r (prev, s)) eqn:E.
    + split; [|discriminate]. intros _. exists [], s.
      rewrite advance_nil, E. repeat split; [simpl; lia | discriminate].
    + destruct s as [|c rest].
      * split; [intros H; now contradiction H|].
        intros (pre & post & Hs & _ & Hm).
        symmetry in Hs. apply app_eq_nil in Hs as [-> ->].
        rewrite advance_nil in Hm. now rewrite E in Hm.
      * rewrite IH. split.
        -- intros (pre & post & -> & Hlen & Hm). exists (c :: pre), post.
           rewrite advance_cons. repeat split; [simpl; lia | exact Hm].
        -- intros (pre & post & Hs & Hlen & Hm).
           destruct pre as [|c' pre].
           ++ simpl in Hs. subst post. rewrite advance_nil in Hm.
              now rewrite E in Hm.
           ++ injection Hs as <- ->. rewrite advance_cons in Hm.
              exists pre, post. repeat split; [simpl in Hlen; lia | exact Hm].
Qed.

(** [re.test(s)] holds exactly when the pattern matches somewhere in [s]. *)
Lemma test_iff (r : regex) (s : jsstring) :
  test r s = true <->
  exists pre post q, s = pre ++ post /\ matches r (last pre, post) q.
Proof.
  unfold test.
  assert (H : search r (None, s) (List.length s) <> None <->
              exists pre post q, s = pre ++ post /\ matches r (last pre, post) q).
  { rewrite search_iff. split.
    - intros (pre & post & -> & _ & Hm). apply match_at_iff in Hm as [q Hq].
      exists pre, post, q. split; [reflexivity|].
      unfold advance in Hq. now destruct (last pre).
    - intros (pre & post & q & -> & Hq). exists pre, post.
      repeat split; [rewrite length_app; lia|].
      apply match_at_iff. exists q. unfold advance. now destruct (last pre). }
  destruct (search r (None, s) (List.length s)); split; intros H';
    try reflexivity; try discriminate.
  - apply H. discriminate.
  - apply H in H'. congruence.
Qed.

(** A match consumes a stretch of the input. *)
Lemma matches_suffix (r : regex) (p q : pos) :
  matches r p q -> exists w, snd p = w ++ snd q.
Proof.
  induction 1 as [p|f prev c rest Hf|r1 r2 p q s _ [w1 E1] _ [w2 E2]
                 |r1 r2 p q _ IH|r1 r2 p q _ IH|r p
                 |r p q s _ [w1 E1] _ _ [w2 E2]|p Hb|rest|c rest Hc];
    try (now exists []); try exact IH.
  - now exists [c].
  - exists (w1 ++ w2). now rewrite E1, E2, app_assoc.
  - exists (w1 ++ w2). now rewrite E1, E2, app_assoc.
Qed.

Lemma matches_opt_skip (r : regex) (p : pos) : matches (Opt r) p p.
Proof. apply m_alt_r. constructor. Qed.

Lemma matches_rep1_one (f : N -> bool) (n : nat) (prev : option N) (c : N)
  (rest : jsstring) :
  f c = true -> matches (Rep1 (S n) (Chr f)) (prev, c :: rest) (Some c, rest).
Proof.
  intros Hf. destruct n as [|n]; simpl.
  - now constructor.
  - eapply m_cat; [now constructor | apply matches_opt_skip].
Qed.

(** ** Contact information *)

(** X16: four digits in a row, anywhere in the text, count as a phone
    number: a resume that only mentions a year has contact information. *)
Theorem X16_four_digits_are_contact_info (before after : jsstring)
  (d1 d2 d3 d4 : N) :
  is_digit d1 = true -> is_digit d2 = true ->
  is_digit d3 = true -> is_digit d4 = true ->
  checkContactInfo (before ++ [d1; d2; d3; d4] ++ after) = true.
Proof.
  intros H1 H2 H3 H4. unfold checkContactInfo.
  apply orb_true_iff. right. apply test_iff.
  exists before, ([d1; d2; d3; d4] ++ after). eexists. split; [reflexivity|].
  unfold re_phone. cbn [CatL app].
  eapply m_cat; [apply matches_opt_skip|].
  eapply m_cat; [apply matches_opt_skip|].
  eapply m_cat; [apply (matches_rep1_one _ 2), H1|].
  eapply m_cat; [apply matches_opt_skip|].
  eapply m_cat; [apply matches_opt_skip|].
  eapply m_cat; [apply matches_opt_skip|].
  eapply m_cat; [apply (matches_rep1_one _ 3), H2|].
  eapply m_cat; [apply matches_opt_skip|].
  eapply m_cat; [apply matches_opt_skip|].
  eapply m_cat; [apply (matches_rep1_one _ 3), H3|].
  eapply m_cat; [apply matches_opt_skip|].
  apply (matches_rep1_one _ 8), H4.
Qed.

Lemma X16_witness :
  checkContactInfo (lit "Graduated in " ++ lit "2024" ++ lit " with honours")
  = true.
Proof.
  apply (X16_four_digits_are_contact_info (lit "Graduated in ")
           (lit " with honours") 50 48 50 52); reflexivity.
Defined.

Lemma in_at_position (pre post w rest : jsstring) (c : N) :
  post = w ++ c :: rest -> In c (pre ++ post).
Proof.
  intros ->. apply in_or_app. right. apply in_or_app. right. now left.
Qed.

(** X17: contact information is never found in a text that has neither a
    digit nor an "@". *)
Theorem X17_contact_info_needs_digit_or_at (text : jsstring) :
  checkContactInfo text = true ->
  exists c, In c text /\ (c = 64%N \/ is_digit c = true).
Proof.
  unfold checkContactInfo. intros H. apply orb_true_iff in H as [H | H];
    apply test_iff in H as (pre & post & q & -> & Hm).
  - unfold re_email in Hm. cbn [CatL] in Hm.
    inversion Hm as [| |? ? ? mid ? Hplus Hrest| | | | | | |]; subst.
    inversion Hrest as [| |? ? ? mid2 ? Hat _| | | | | | |]; subst.
    inversion Hat as [|? prev c rest Hc| | | | | | | |]; subst.
    destruct (matches_suffix _ _ _ Hplus) as [w Hw]. simpl in Hw.
    exists c. split; [eapply in_at_position; eauto|].
    left. apply N.eqb_eq in Hc. congruence.
  - unfold re_phone in Hm. cbn [CatL] in Hm.
    inversion Hm as [| |? ? ? p1 ? Ho1 Hr1| | | | | | |]; subst.
    inversion Hr1 as [| |? ? ? p2 ? Ho2 Hr2| | | | | | |]; subst.
    inversion Hr2 as [| |? ? ? p3 ? Hd _| | | | | | |]; subst.
    simpl in Hd.
    inversion Hd as [| |? ? ? p4 ? Hc _| | | | | | |]; subst.
    inversion Hc as [|? prev c rest Hdig| | | | | | | |]; subst.
    destruct (matches_suffix _ _ _ Ho1) as [w1 Hw1].
    destruct (matches_suffix _ _ _ Ho2) as [w2 Hw2].
    simpl in Hw1, Hw2.
    exists c. split; [|now right].
    eapply (in_at_position pre post (w1 ++ w2)).
    rewrite Hw1, Hw2, <- app_assoc. reflexivity.
Qed.

Lemma X17_witness :
  exists c, In c (lit "call 555 0100") /\ (c = 64%N \/ is_digit c = true).
Proof.
  apply X17_contact_info_needs_digit_or_at. vm_compute. reflexivity.
Defined.

(** ** Section headers and the presence signals *)

(** The experience header of the presence check is one of the headers the
    section count looks for. *)
Lemma experience_header_is_section (text : jsstring) :
  test re_experience_header text = true ->
  test re_experience_section text = true.
Proof.
  rewrite !test_iff. intros (pre & post & q & -> & Hm).
  exists pre, post, q. split; [reflexivity|].
  unfold re_experience_header, re_experience_section, header in *.
  cbn [CatL AltL] in *.
  inversion Hm as [| |? ? ? p1 ? Hb Hr| | | | | | |]; subst.
  inversion Hr as [| |? ? ? p2 ? Ha Hb2| | | | | | |]; subst.
  eapply m_cat; [exact Hb|]. eapply m_cat; [|exact Hb2].
  inversion Ha as [| | |? ? ? ? H1|? ? ? ? H1| | | | |]; subst.
  - now apply m_alt_l.
  - apply m_alt_r.
    inversion H1 as [| | |? ? ? ? H2|? ? ? ? H2| | | | |]; subst.
    + now apply m_alt_l.
    + apply m_alt_r. now apply m_alt_l.
Qed.

Lemma countSections_bounds (text : jsstring) : 0 <= countSections text <= 9.
Proof.
  unfold countSections.
  pose proof (List.filter_length_le (fun pattern => test pattern text)
                sectionPatterns) as H.
  change (List.length sectionPatterns) with 9%nat in H. lia.
Qed.

Lemma countSections_lower (text : jsstring) :
  points (test re_experience_section text) 1
  + points (test re_projects_section text) 1 <= countSections text.
Proof.
  unfold countSections, sectionPatterns. cbn [List.filter].
  destruct (test re_experience_section text),
    (test re_education_section text), (test re_skills_section text),
    (test re_projects_section text); cbn [points List.length];
    repeat match goal with
           | |- context [if ?b then _ :: _ else _] => destruct b
           end; cbn [List.length]; lia.
Qed.

(** X18: the metrics are not independent.  The section count is between 0
    and 9, and for a resume given as text only, detected experience and
    detected projects each come with a section header that the section
    count counts too. *)
Theorem X18_presence_implies_sections (toLowerCase : jsstring -> jsstring)
  (input : NormalModeInput) :
  let m := contentMetrics (assessInputQuality toLowerCase input) in
  0 <= sectionCount m <= 9
  /\ (resumeData input = None ->
      points (hasExperience m) 1 + points (hasProjects m) 1 <= sectionCount m).
Proof.
  cbv zeta. rewrite contentMetrics_assess.
  cbn [sectionCount hasExperience hasProjects].
  split; [apply countSections_bounds|].
  intros ->. cbn [checkExperiencePresence checkProjectsPresence].
  pose proof (countSections_lower (resumeText input)) as H.
  pose proof (experience_header_is_section (resumeText input)) as He.
  destruct (test re_experience_header (resumeText input)).
  - rewrite (He eq_refl) in H.
    destruct (test re_job_indicators (resumeText input)),
      (test re_projects_section (resumeText input)); simpl in *; lia.
  - destruct (test re_experience_section (resumeText input)),
      (test re_projects_section (resumeText input)); simpl in *; lia.
Qed.

Lemma X18_witness :
  points (hasExperience (contentMetrics
            (assessInputQuality ascii_toLowerCase strong_input))) 1
  + points (hasProjects (contentMetrics
              (assessInputQuality ascii_toLowerCase strong_input))) 1
  <= sectionCount (contentMetrics
       (assessInputQuality ascii_toLowerCase strong_input)).
Proof.
  apply (X18_presence_implies_sections ascii_toLowerCase strong_input).
  reflexivity.
Defined.

(** ** Counting skills by substring *)

Lemma starts_with_iff (t s : jsstring) :
  starts_with t s = true <-> exists post, s = t ++ post.
Proof.
  revert s. induction t as [|a t IH]; intros s; simpl.
  - split; eauto.
  - destruct s as [|b s].
    + split; [discriminate | intros [post H]; discriminate].
    + rewrite andb_true_iff, N.eqb_eq, IH. split.
      * intros [-> [post ->]]. eauto.
      * intros [post [= -> ->]]. eauto.
Qed.

Lemma includes_iff (s t : jsstring) :
  includes s t = true <-> exists pre post, s = pre ++ t ++ post.
Proof.
  induction s as [|c s IH].
  - cbn [includes]. rewrite orb_false_r, starts_with_iff. split.
    + intros [post H]. exists [], post. exact H.
    + intros (pre & post & H). symmetry in H.
      apply app_eq_nil in H as [-> H]. exists post. now rewrite H.
  - cbn [includes]. rewrite orb_true_iff, starts_with_iff, IH. split.
    + intros [[post H] | (pre & post & ->)].
      * exists [], post. exact H.
      * exists (c :: pre), post. reflexivity.
    + intros ([|c' pre] & post & H).
      * left. exists post. exact H.
      * right. injection H as -> ->. eauto.
Qed.

Lemma includes_trans (s t u : jsstring) :
  includes s t = true -> includes t u = true -> includes s u = true.
Proof.
  rewrite !includes_iff. intros (p1 & q1 & ->) (p2 & q2 & ->).
  exists (p1 ++ p2), (q2 ++ q1). now rewrite <- !app_assoc.
Qed.

Lemma set_add_in (x : jsstring) (s : list jsstring) : In x (set_add x s).
Proof.
  induction s as [|y s IH]; simpl; [now left|].
  destruct (jsstring_eq_dec x y) as [->|]; [now left | now right].
Qed.

Lemma set_add_keeps (x y : jsstring) (s : list jsstring) :
  In y s -> In y (set_add x s).
Proof.
  induction s as [|z s IH]; simpl; [tauto|].
  destruct (jsstring_eq_dec x z); simpl; tauto.
Qed.

Lemma vocabulary_fold_keeps (textLower : jsstring) (vocabulary : list jsstring)
  (acc : list jsstring) (y : jsstring) :
  In y acc ->
  In y (List.fold_left
          (fun acc skill => if includes textLower skill
                            then set_add skill acc else acc)
          vocabulary acc).
Proof.
  revert acc. induction vocabulary as [|v vs IH]; intros acc H; simpl; auto.
  apply IH. destruct (includes textLower v); auto using set_add_keeps.
Qed.

Lemma vocabulary_fold_adds (textLower : jsstring) (vocabulary : list jsstring)
  (acc : list jsstring) (x : jsstring) :
  In x vocabulary -> includes textLower x = true ->
  In x (List.fold_left
          (fun acc skill => if includes textLower skill
                            then set_add skill acc else acc)
          vocabulary acc).
Proof.
  revert acc. induction vocabulary as [|v vs IH]; intros acc Hin Hx; simpl.
  - destruct Hin.
  - destruct Hin as [-> | Hin]; [|now apply IH].
    rewrite Hx. apply vocabulary_fold_keeps, set_add_in.
Qed.

Lemma two_members (a b : jsstring) (l : list jsstring) :
  In a l -> In b l -> a <> b -> (2 <= List.length l)%nat.
Proof.
  destruct l as [|x [|y l]]; simpl; intros Ha Hb Hne; try lia.
  destruct Ha as [<-|[]], Hb as [<-|[]]. congruence.
Qed.

(** X19: skills are counted by substring, so overlapping vocabulary terms
    are all counted: a text whose lowercase form contains a term that
    itself contains another term (javascript and java, mysql and sql) is
    credited with at least two skills. *)
Theorem X19_overlapping_skills_counted_twice
  (toLowerCase : jsstring -> jsstring) (input : NormalModeInput)
  (long short : jsstring) :
  In long techSkills -> In short techSkills -> long <> short ->
  includes long short = true ->
  includes (toLowerCase (resumeText input)) long = true ->
  2 <= uniqueSkillCount (contentMetrics (assessInputQuality toLowerCase input)).
Proof.
  intros Hl Hs Hne Hsub Htext.
  rewrite contentMetrics_assess. cbn [uniqueSkillCount].
  unfold countUniqueSkills. cbv zeta.
  match goal with
  | |- 2 <= Z.of_nat (List.length ?l) =>
      assert (H : (2 <= List.length l)%nat); [|lia]
  end.
  apply (two_members long short); [| |exact Hne].
  - now apply vocabulary_fold_adds.
  - apply vocabulary_fold_adds; [exact Hs|].
    eapply includes_trans; eauto.
Qed.

Lemma X19_witness :
  2 <= uniqueSkillCount (contentMetrics
         (assessInputQuality ascii_toLowerCase
            {| resumeText := lit "I know JavaScript"; resumeData := None;
               userType := None |})).
Proof.
  apply (X19_overlapping_skills_counted_twice ascii_toLowerCase
           {| resumeText := lit "I know JavaScript"; resumeData := None;
              userType := None |} (lit "javascript") (lit "java")).
  - simpl. left. reflexivity.
  - simpl. do 3 right. left. reflexivity.
  - intros E. vm_compute in E. discriminate.
  - reflexivity.
  - reflexivity.
Defined.

(** ** The word count *)

(** The number of maximal runs of non-whitespace code units. *)
Fixpoint count_runs (in_word : bool) (s : jsstring) : Z :=
  match s with
  | [] => 0
  | c :: rest =>
      if is_space c then count_runs false rest
      else (if in_word then 0 else 1) + count_runs true rest
  end.

(** The position after the whitespace that starts at a position. *)
Fixpoint skip_spaces (prev : option N) (s : jsstring) : pos :=
  match s with
  | c :: rest => if is_space c then skip_spaces (Some c) rest else (prev, s)
  | [] => (prev, [])
  end.

Lemma skip_spaces_shorter (prev : option N) (s : jsstring) :
  (remaining (skip_spaces prev s) <= List.length s)%nat.
Proof.
  unfold remaining.
  revert prev. induction s as [|c s IH]; intros prev; simpl; [lia|].
  destruct (is_space c); [specialize (IH (Some c)) | simpl]; lia.
Qed.

Lemma count_runs_skip (prev : option N) (s : jsstring) :
  count_runs false (snd (skip_spaces prev s)) = count_runs false s.
Proof.
  revert prev. induction s as [|c s IH]; intros prev; simpl; [reflexivity|].
  destruct (is_space c) eqn:E; [apply IH|]. simpl. now rewrite E.
Qed.

Lemma star_spaces (fuel : nat) :
  forall prev s, (List.length s <= fuel)%nat ->
    star_loop (rmatch (Chr is_space)) Some fuel (prev, s)
    = Some (skip_spaces prev s).
Proof.
  induction fuel as [|fuel IH]; intros prev s Hlen.
  - destruct s; [reflexivity | simpl in Hlen; lia].
  - destruct s as [|c rest]; [reflexivity|].
    cbn [star_loop rmatch snd skip_spaces].
    destruct (is_space c); [|reflexivity].
    unfold remaining. cbn [snd List.length].
    rewrite (proj2 (Nat.ltb_lt _ _)) by lia.
    rewrite IH by (simpl in Hlen; lia). reflexivity.
Qed.

(** The separator [/\s+/] at a position: all the whitespace there, if any. *)
Lemma spaces_match_at (prev : option N) (s : jsstring) :
  match_at re_spaces (prev, s) =
  match s with
  | c :: rest => if is_space c then Some (skip_spaces (Some c) rest) else None
  | [] => None
  end.
Proof.
  unfold match_at, re_spaces, Plus. cbn [rmatch snd].
  destruct s as [|c rest]; [reflexivity|].
  destruct (is_space c); [|reflexivity].
  change (star_loop (rmatch (Chr is_space)) Some (remaining (Some c, rest))
            (Some c, rest) = Some (skip_spaces (Some c) rest)).
  now apply star_spaces.
Qed.

Definition non_empty_pieces (pieces : list jsstring) : Z :=
  Z.of_nat (List.length
    (List.filter (fun w => (0 <? List.length w)%nat) pieces)).

Lemma non_empty_pieces_cons (w : jsstring) (pieces : list jsstring) :
  non_empty_pieces (w :: pieces)
  = (if (0 <? List.length w)%nat then 1 else 0) + non_empty_pieces pieces.
Proof.
  unfold non_empty_pieces. cbn [List.filter].
  destruct (0 <? List.length w)%nat; cbn [List.length]; lia.
Qed.

Lemma split_from_spaces (fuel : nat) :
  forall piece prev s, (List.length s < fuel)%nat ->
    non_empty_pieces (split_from re_spaces piece (prev, s) fuel)
    = (if (0 <? List.length piece)%nat then 1 else 0)
      + count_runs (0 <? List.length piece)%nat s.
Proof.
  induction fuel as [|fuel IH]; intros piece prev s Hlen; [lia|].
  destruct s as [|c rest].
  - cbn [split_from snd count_runs]. rewrite non_empty_pieces_cons.
    rewrite length_rev. unfold non_empty_pieces. simpl. lia.
  - cbn [split_from snd]. rewrite spaces_match_at. cbn [count_runs].
    destruct (is_space c) eqn:Ec.
    + pose proof (skip_spaces_shorter (Some c) rest) as Hs.
      assert (Hne : (remaining (skip_spaces (Some c) rest)
                     =? remaining (prev, c :: rest))%nat = false).
      { apply Nat.eqb_neq. unfold remaining at 2. simpl. lia. }
      rewrite Hne, andb_false_r.
      rewrite non_empty_pieces_cons, length_rev.
      destruct (skip_spaces (Some c) rest) as [prev' s'] eqn:Esk.
      rewrite IH by (unfold remaining in Hs; simpl in *; lia).
      cbn [List.length Nat.ltb Nat.leb].
      replace s' with (snd (skip_spaces (Some c) rest)) by now rewrite Esk.
      rewrite count_runs_skip. lia.
    + rewrite IH by (simpl in Hlen; lia).
      cbn [List.length]. destruct piece; unfold Nat.ltb; simpl; lia.
Qed.

Lemma trim_start_split (s : jsstring) :
  exists sp, Forall (fun c => is_space c = true) sp /\ s = sp ++ trim_start s.
Proof.
  induction s as [|c s (sp & Hsp & IH)].
  - exists []. split; [constructor | reflexivity].
  - simpl. destruct (is_space c) eqn:E.
    + exists (c :: sp). split; [now constructor | simpl; f_equal; exact IH].
    + exists []. split; [constructor | reflexivity].
Qed.

Lemma count_runs_leading (sp s : jsstring) (b : bool) :
  Forall (fun c => is_space c = true) sp -> sp <> [] \/ b = false ->
  count_runs b (sp ++ s) = count_runs false s.
Proof.
  intros H. revert b. induction H as [|c sp Hc _ IH]; intros b Hb; simpl.
  - destruct Hb as [Hb | ->]; [congruence | reflexivity].
  - rewrite Hc. apply IH. now right.
Qed.

Lemma count_runs_spaces (sp : jsstring) (b : bool) :
  Forall (fun c => is_space c = true) sp -> count_runs b sp = 0.
Proof.
  intros H. revert b. induction H as [|c sp Hc _ IH]; intros b; simpl;
    [reflexivity|]. rewrite Hc. apply IH.
Qed.

Lemma count_runs_trailing (s sp : jsstring) (b : bool) :
  Forall (fun c => is_space c = true) sp ->
  count_runs b (s ++ sp) = count_runs b s.
Proof.
  intros H. revert b. induction s as [|c s IH]; intros b; simpl.
  - now apply count_runs_spaces.
  - destruct (is_space c); now rewrite IH.
Qed.

Lemma count_runs_trim (s : jsstring) :
  count_runs false (trim s) = count_runs false s.
Proof.
  unfold trim.
  destruct (trim_start_split s) as (sp1 & H1 & E1).
  destruct (trim_start_split (List.rev (trim_start s))) as (sp2 & H2 & E2).
  apply (f_equal (@List.rev N)) in E2.
  rewrite rev_involutive, rev_app_distr in E2.
  rewrite E1 at 2. rewrite count_runs_leading by (auto).
  rewrite E2 at 2. rewrite count_runs_trailing; [reflexivity|].
  apply List.Forall_forall. intros c Hc. apply in_rev in Hc.
  rewrite List.Forall_forall in H2. now apply H2.
Qed.

Lemma count_runs_bounds (b : bool) (s : jsstring) :
  0 <= count_runs b s <= Z.of_nat (List.length s).
Proof.
  revert b. induction s as [|c s IH]; intros b; simpl; [lia|].
  pose proof (IH true). pose proof (IH false).
  destruct (is_space c), b; lia.
Qed.

(** X20: the word count is the number of maximal runs of non-whitespace
    code units of the text: leading, trailing and repeated whitespace do
    not count, and the count never exceeds the length of the text. *)
Theorem X20_word_count_counts_runs (toLowerCase : jsstring -> jsstring)
  (input : NormalModeInput) :
  let wc := wordCount (contentMetrics (assessInputQuality toLowerCase input)) in
  wc = count_runs false (resumeText input)
  /\ 0 <= wc <= Z.of_nat (List.length (resumeText input)).
Proof.
  cbv zeta. rewrite contentMetrics_assess. cbn [wordCount].
  assert (H : forall s,
    non_empty_pieces (split re_spaces s) = count_runs false s).
  { intros s. unfold split. destruct s as [|c rest].
    - rewrite spaces_match_at. reflexivity.
    - rewrite split_from_spaces by lia. reflexivity. }
  fold (non_empty_pieces (split re_spaces (trim (resumeText input)))).
  rewrite H, count_runs_trim.
  split; [reflexivity | apply count_runs_bounds].
Qed.

Example word_count_samples :
  List.map (count_runs false)
    [lit ""; lit "   "; lit "one"; lit "  one   two  "; lit "a
b	c"]
  = [0; 0; 1; 2; 3].
Proof. reflexivity. Qed.

(** ** From the rubric score to the multiplier *)

Lemma multiplier_of_label_mono (s1 s2 : Z) :
  s1 <= s2 ->
  (multiplier_table (label_of s1) <=? multiplier_table (label_of s2))%float
  = true.
Proof.
  intros H. unfold label_of.
  destruct (Z.leb_spec 80 s1), (Z.leb_spec 80 s2); try lia; try reflexivity;
    destruct (Z.leb_spec 60 s1), (Z.leb_spec 60 s2); try lia; try reflexivity;
    destruct (Z.leb_spec 40 s1), (Z.leb_spec 40 s2); try lia; try reflexivity;
    destruct (Z.leb_spec 20 s1), (Z.leb_spec 20 s2); try lia; reflexivity.
Qed.

(** X21: assessment and adjustment agree in direction: of two resumes, the
    one with the higher rubric score never gets the smaller quality
    multiplier, whatever the base scores and levels. *)
Theorem X21_multiplier_follows_quality_score
  (toLowerCase : jsstring -> jsstring) (in1 in2 : NormalModeInput)
  (b1 b2 : float) (l1 l2 : CandidateLevel) :
  let a1 := assessInputQuality toLowerCase in1 in
  let a2 := assessInputQuality toLowerCase in2 in
  qualityScore a1 <= qualityScore a2 ->
  (qualityMultiplier (calculateAdjustedScore b1 a1 l1)
   <=? qualityMultiplier (calculateAdjustedScore b2 a2 l2))%float = true.
Proof.
  cbv zeta. intros H.
  rewrite (proj1 (finalScore_eq b1 _ l1)), (proj1 (finalScore_eq b2 _ l2)).
  rewrite (proj1 (quality_assess toLowerCase in1)),
    (proj1 (quality_assess toLowerCase in2)).
  now apply multiplier_of_label_mono.
Qed.

Lemma X21_witness :
  (qualityMultiplier
     (calculateAdjustedScore 70
        (assessInputQuality ascii_toLowerCase
           {| resumeText := []; resumeData := None; userType := None |})
        "senior")
   <=? qualityMultiplier
         (calculateAdjustedScore 70
            (assessInputQuality ascii_toLowerCase strong_input) "senior"))%float
  = true.
Proof.
  apply X21_multiplier_follows_quality_score.
  pose proof (qualityScore_assess ascii_toLowerCase strong_input) as H.
  cbv zeta in H. rewrite H, strong_input_metrics. vm_compute. discriminate.
Defined.

(** ** Structured data before the text *)

(** X22: when the parsed resume lists work experience or projects, the
    text is not consulted for that signal: entries without any bullet give
    [false] even if the text has the section, and one entry with a bullet
    gives [true] even if the text has none; any education entry gives
    [true]. *)
Theorem X22_structured_entries_decide (toLowerCase : jsstring -> jsstring)
  (input : NormalModeInput) (d : ResumeData) :
  resumeData input = Some d ->
  let m := contentMetrics (assessInputQuality toLowerCase input) in
  (forall e es, workExperience d = Some (e :: es) ->
     hasExperience m =
     List.existsb (fun x => non_empty (exp_bullets x)) (e :: es))
  /\ (forall p ps, projects d = Some (p :: ps) ->
     hasProjects m =
     List.existsb (fun x => non_empty (proj_bullets x)) (p :: ps))
  /\ (forall e es, education d = Some (e :: es) -> hasEducation m = true).
Proof.
  intros Hd. cbv zeta. rewrite contentMetrics_assess.
  cbn [hasExperience hasProjects hasEducation]. rewrite Hd.
  destruct d as [sk ed we pr]. cbn [workExperience projects education].
  repeat split.
  - intros e es ->. reflexivity.
  - intros p ps ->. reflexivity.
  - intros e es ->. reflexivity.
Qed.

(** A parsed resume whose only job has no bullet, with a text that has an
    experience section. *)
Definition bulletless_job_input : NormalModeInput :=
  {| resumeText := lit "EXPERIENCE
Developed and managed services";
     resumeData :=
       Some {| skills := None; education := None;
               workExperience :=
                 Some [ {| role := lit "Engineer"; exp_bullets := Some [] |} ];
               projects := None |};
     userType := None |}.

Lemma X22_witness :
  hasExperience (contentMetrics
    (assessInputQuality ascii_toLowerCase bulletless_job_input)) = false
  /\ checkExperiencePresence (resumeText bulletless_job_input) None = true.
Proof.
  split; [|reflexivity].
  rewrite (proj1 (X22_structured_entries_decide ascii_toLowerCase
                    bulletless_job_input _ eq_refl)
             {| role := lit "Engineer"; exp_bullets := Some [] |} [] eq_refl).
  reflexivity.
Defined.
